(** * pylightning's [Plugin]: framing, dispatch and stream redirection

    A shallow embedding of [contrib/pylightning/lightning/plugin.py]:
    the method table, [_dispatch] with its signature binding, the
    response loop [_multi_dispatch], the read loop [run], the built-in
    [getmanifest] and [init] handlers and the [PluginStream] sink.

    Python objects are mutable; here every method is a function of the
    plugin object it mutates, in a state-and-exception monad.  An
    exception leaves the mutations made before it in place, as in
    Python. *)

From Stdlib Require Import String Ascii List Bool ZArith Lia.
Import ListNotations.
Open Scope string_scope.
Set Warnings "-register-all".

(** ** Text *)

Module Text.

Definition nl : ascii := "010"%char.

(** The frame delimiter ['\n\n'] and the line terminator ['\n']. *)
Definition NLNL : string := String nl (String nl "").
Definition NL : string := String nl "".

(** Puts one more character in front of the first segment. *)
Definition cons_head (c : ascii) (segs : list string) : list string :=
  match segs with
  | [] => [String c ""]
  | h :: t => String c h :: t
  end.

(** [s.split('\n\n')]: cut at every occurrence of the delimiter, found
    from the left and without overlap. *)
Fixpoint split_nlnl (s : string) : list string :=
  match s with
  | "" => [""]
  | String c rest =>
      match rest with
      | String d rest' =>
          if (Ascii.eqb c nl && Ascii.eqb d nl)%bool
          then "" :: split_nlnl rest'
          else cons_head c (split_nlnl rest)
      | "" => cons_head c (split_nlnl rest)
      end
  end.

(** Whether the text starts with the frame delimiter. *)
Definition starts_delim (s : string) : bool :=
  match s with
  | String c (String d _) => (Ascii.eqb c nl && Ascii.eqb d nl)%bool
  | _ => false
  end.

(** [s.split('\n')]. *)
Fixpoint split_nl (s : string) : list string :=
  match s with
  | "" => [""]
  | String c rest =>
      if Ascii.eqb c nl then "" :: split_nl rest
      else cons_head c (split_nl rest)
  end.

(** [s[-1]], which raises [IndexError] on the empty string. *)
Fixpoint last_char (s : string) : option ascii :=
  match s with
  | "" => None
  | String c "" => Some c
  | String _ rest => last_char rest
  end.

(** [msgs[:-1]] and [msgs[-1]] on a list that [split] returned. *)
Definition but_last {A} (l : list A) : list A := removelast l.
Definition last_seg (l : list string) : string := last l "".

(** What iterating over a text stream yields: the lines, each with its
    newline, and what follows the last newline if it is not empty. *)
Fixpoint lines_from (cur : string) (s : string) : list string :=
  match s with
  | "" => match cur with "" => [] | _ => [cur] end
  | String c rest =>
      if Ascii.eqb c nl then (cur ++ String c "") :: lines_from "" rest
      else lines_from (cur ++ String c "") rest
  end.
Definition lines (s : string) : list string := lines_from "" s.

(** The whole input, given the pieces the stream yields. *)
Definition join (pieces : list string) : string :=
  fold_right String.append "" pieces.

End Text.

(** ** Values *)

(** What [json.loads] returns and [json.dump] writes.  Numbers are the
    integers; dictionaries keep their keys in insertion order. *)
Inductive json : Type :=
| JNull
| JBool (b : bool)
| JNum (n : Z)
| JStr (s : string)
| JArr (items : list json)
| JObj (fields : list (string * json)).

(** A Python value that reaches a handler or comes back from one: a JSON
    value, or an object [json.dump] cannot serialise, such as the plugin
    itself. *)
Inductive pyval : Type :=
| PJson (j : json)
| PPlugin.

(** The exceptions the module raises or lets through. *)
Inductive exn : Type :=
| ValueError_bound (name : string)
    (* ValueError("Name {} is already bound to a method.") *)
| ValueError_no_method (name : json)
    (* ValueError("No method {} found.") *)
| KeyError (key : string)
| TypeError (msg : string)
| IndexError
| JSONDecodeError (payload : string)
| HandlerError (cls : string)
    (* an exception of class [cls], derived from Exception, raised by a
       handler body *)
| HandlerExit (cls : string).
    (* SystemExit, KeyboardInterrupt and the like: derived from
       BaseException only *)

(** [except Exception] catches everything but the last kind. *)
Definition is_Exception (e : exn) : bool :=
  match e with
  | HandlerExit _ => false
  | _ => true
  end.

(** The text of a notification parameter. *)
Inductive text : Type :=
| Text (s : string)
| FormatExc (e : exn).   (* traceback.format_exc() while handling [e] *)

(** One document written to stdout, each followed by ['\n\n'] and a
    flush, or the beginning of one. *)
Inductive frame : Type :=
| FResult (result : json) (id : json)
    (* {"jsonrpc": "2.0", "result": result, "id": id} *)
| FError (method : json) (id : json)
    (* {"jsonrpc": "2.0",
        "error": "Error while processing {}".format(method), "id": id} *)
| FNotification (method : string) (params : list (string * text))
    (* {"jsonrpc": "2.0", "method": method, "params": params} *)
| FTruncated.
    (* {"jsonrpc": "2.0", "result":   and no more: what [json.dump] has
       written of a response when it meets a result it cannot serialise;
       neither delimiter nor flush follows *)

(** ** Dictionaries in insertion order *)

Module Dict.
Section Dict.
Context {V : Type}.

Fixpoint get (k : string) (d : list (string * V)) : option V :=
  match d with
  | [] => None
  | (k', v) :: d' => if String.eqb k k' then Some v else get k d'
  end.

Definition mem (k : string) (d : list (string * V)) : bool :=
  match get k d with Some _ => true | None => false end.

(** [d[k] = v]: a bound key keeps its place. *)
Fixpoint set (k : string) (v : V) (d : list (string * V))
  : list (string * V) :=
  match d with
  | [] => [(k, v)]
  | (k', v') :: d' =>
      if String.eqb k k' then (k, v) :: d' else (k', v') :: set k v d'
  end.

Fixpoint remove (k : string) (d : list (string * V))
  : list (string * V) :=
  match d with
  | [] => []
  | (k', v') :: d' =>
      if String.eqb k k' then d' else (k', v') :: remove k d'
  end.
End Dict.
End Dict.

(** ** Handlers and the plugin object *)

(** A declared parameter: its name and its default, if it has one.  All
    parameters are of the positional-or-keyword kind. *)
Record param : Type := { pname : string; pdefault : option pyval }.

Inductive outcome (A : Type) : Type :=
| Return (a : A)
| Raise (e : exn).
Arguments Return {A} a.
Arguments Raise {A} e.

(** A user function: what [inspect.signature] and [inspect.getdoc] say
    about it, and its body on the bound arguments, in declared order. *)
Record func : Type := {
  fname : string;
  fparams : list param;
  fdoc : option string;
  fbody : list (string * pyval) -> outcome pyval
}.

(** What a method name can be bound to: the two bound methods of the
    plugin itself, or a user function. *)
Inductive handler : Type :=
| Getmanifest
| Init
| User (f : func).

(** The plugin object.  [stdout] lists the frames written so far, oldest
    first; [calls] is a ghost log of the user functions invoked, oldest
    first, with the arguments they were given. *)
Record Plugin : Type := {
  methods : list (string * handler);
  init : option handler;
  stdout : list frame;
  calls : list (string * list (string * pyval))
}.

Definition set_methods (m : list (string * handler)) (p : Plugin) : Plugin :=
  {| methods := m; init := init p; stdout := stdout p; calls := calls p |}.
Definition set_init (i : option handler) (p : Plugin) : Plugin :=
  {| methods := methods p; init := i; stdout := stdout p; calls := calls p |}.
Definition write_frame (f : frame) (p : Plugin) : Plugin :=
  {| methods := methods p; init := init p; stdout := stdout p ++ [f];
     calls := calls p |}.
Definition log_call (name : string) (args : list (string * pyval))
  (p : Plugin) : Plugin :=
  {| methods := methods p; init := init p; stdout := stdout p;
     calls := calls p ++ [(name, args)] |}.

(** ** The monad of methods *)

Inductive res (A : Type) : Type :=
| Ok (a : A)
| Exc (e : exn)
| OutOfFuel.
Arguments Ok {A} a.
Arguments Exc {A} e.
Arguments OutOfFuel {A}.

Definition M (A : Type) : Type := Plugin -> res A * Plugin.

Definition ret {A} (a : A) : M A := fun self => (Ok a, self).
Definition raise {A} (e : exn) : M A := fun self => (Exc e, self).
Definition out_of_fuel {A} : M A := fun self => (OutOfFuel, self).

Definition bind {A B} (m : M A) (k : A -> M B) : M B :=
  fun self =>
    match m self with
    | (Ok a, self') => k a self'
    | (Exc e, self') => (Exc e, self')
    | (OutOfFuel, self') => (OutOfFuel, self')
    end.

Notation "x <- m ;; k" := (bind m (fun x => k))
  (at level 61, m at next level, right associativity).
Notation "m ;;; k" := (bind m (fun _ => k))
  (at level 61, right associativity).

Definition lift {A} (o : outcome A) : M A :=
  match o with
  | Return a => ret a
  | Raise e => raise e
  end.

Definition get_self : M Plugin := fun self => (Ok self, self).
Definition modify (f : Plugin -> Plugin) : M unit :=
  fun self => (Ok tt, f self).

(** [try: m except Exception as e: h e]. *)
Definition try_except {A} (m : M A) (h : exn -> M A) : M A :=
  fun self =>
    match m self with
    | (Exc e, self') => if is_Exception e then h e self' else (Exc e, self')
    | r => r
    end.

(** ** [inspect.Signature.bind] and [apply_defaults] *)

Module Signature.

Definition required (name : string) : param :=
  {| pname := name; pdefault := None |}.

(** [name in sig.parameters]. *)
Definition declares (name : string) (sig : list param) : bool :=
  existsb (fun p => String.eqb name (pname p)) sig.

(** The parameters left once the positional arguments are used up take
    their value from the keyword arguments, else from their default;
    a keyword that names no parameter is refused. *)
Fixpoint bind_keywords (sig : list param) (kwargs : list (string * pyval))
  : outcome (list (string * pyval)) :=
  match sig with
  | [] =>
      match kwargs with
      | [] => Return []
      | (k, _) :: _ =>
          Raise (TypeError ("got an unexpected keyword argument '" ++ k ++ "'"))
      end
  | p :: sig' =>
      let value :=
        match Dict.get (pname p) kwargs with
        | Some v => Some v
        | None => pdefault p
        end in
      match value with
      | None =>
          Raise (TypeError ("missing a required argument: '" ++ pname p ++ "'"))
      | Some v =>
          match bind_keywords sig' (Dict.remove (pname p) kwargs) with
          | Return rest => Return ((pname p, v) :: rest)
          | Raise e => Raise e
          end
      end
  end.

(** [sig.bind] on the positional and keyword arguments, followed by
    [apply_defaults]: the
    value of every declared parameter, in declared order. *)
Fixpoint bind_args (sig : list param) (args : list pyval)
  (kwargs : list (string * pyval)) {struct args}
  : outcome (list (string * pyval)) :=
  match args with
  | [] => bind_keywords sig kwargs
  | a :: args' =>
      match sig with
      | [] => Raise (TypeError "too many positional arguments")
      | p :: sig' =>
          if Dict.mem (pname p) kwargs
          then Raise (TypeError ("multiple values for argument '" ++ pname p ++ "'"))
          else
            match bind_args sig' args' kwargs with
            | Return rest => Return ((pname p, a) :: rest)
            | Raise e => Raise e
            end
      end
  end.

End Signature.

(** ** class Plugin *)

(** [Plugin()]: the table holds the built-in [getmanifest] only. *)
Definition Plugin_new : Plugin :=
  {| methods := [("getmanifest", Getmanifest)]; init := None;
     stdout := []; calls := [] |}.

Definition add_method (name : string) (f : handler) : M unit :=
  self <- get_self ;;
  if Dict.mem name (methods self)
  then raise (ValueError_bound name)
  else modify (set_methods (Dict.set name f (methods self))).

Definition notify (method : string) (params : list (string * text)) : M unit :=
  modify (write_frame (FNotification method params)).

Definition log (message : text) (level : string) : M unit :=
  notify "log" [("level", Text level); ("message", message)].

(** [inspect.signature(func)]; the bound methods do not list [self]. *)
Definition signature (f : handler) : list param :=
  match f with
  | Getmanifest => []
  | Init => [Signature.required "options";
             Signature.required "configuration";
             Signature.required "request"]
  | User u => fparams u
  end.

(** [inspect.getdoc(func)]; the two bound methods have no docstring. *)
Definition getdoc (f : handler) : option string :=
  match f with
  | User u => fdoc u
  | _ => None
  end.

Definition undocumented : string := "Undocumented RPC method from a plugin.".

Definition is_builtin (name : string) : bool :=
  (String.eqb name "getmanifest" || String.eqb name "init")%bool.

(** The description [_getmanifest] reports for a function. *)
Definition description (f : handler) : string :=
  match getdoc f with
  | Some (String c d) => String c d
  | _ => undocumented
  end.

Definition rpcmethod (name doc : string) : json :=
  JObj [("name", JStr name); ("description", JStr doc)].

(** The loop of [_getmanifest] over [self.methods.items()]. *)
Fixpoint manifest_methods (items : list (string * handler)) : M (list json) :=
  match items with
  | [] => ret []
  | (name, f) :: items' =>
      if is_builtin name then manifest_methods items'
      else
        doc <- match getdoc f with
               | Some (String c d) => ret (String c d)
               | _ =>
                   log (Text ("RPC method '" ++ name
                              ++ "' does not have a docstring.")) "info" ;;;
                   ret undocumented
               end ;;
        rest <- manifest_methods items' ;;
        ret (rpcmethod name doc :: rest)
  end.

Definition _getmanifest : M pyval :=
  self <- get_self ;;
  ms <- manifest_methods (methods self) ;;
  ret (PJson (JObj [("options", JArr []); ("rpcmethods", JArr ms)])).

(** [obj[key]] with a string key. *)
Definition getitem (obj : json) (key : string) : M json :=
  match obj with
  | JObj d =>
      match Dict.get key d with
      | Some v => ret v
      | None => raise (KeyError key)
      end
  | JStr _ => raise (TypeError "string indices must be integers")
  | JArr _ => raise (TypeError "list indices must be integers or slices, not str")
  | _ => raise (TypeError "object is not subscriptable")
  end.

(** [if name not in self.methods: raise ValueError(...)] and then
    [self.methods[name]]. *)
Definition find_method (name : json) : M handler :=
  self <- get_self ;;
  match name with
  | JStr s =>
      match Dict.get s (methods self) with
      | Some f => ret f
      | None => raise (ValueError_no_method name)
      end
  | JArr _ | JObj _ => raise (TypeError "unhashable type")
  | _ => raise (ValueError_no_method name)
  end.

Definition positional (params : json) : list pyval :=
  match params with
  | JArr items => map PJson items
  | _ => []
  end.

Definition keywords (params : json) : list (string * pyval) :=
  match params with
  | JObj fields => map (fun kv => (fst kv, PJson (snd kv))) fields
  | _ => []
  end.

(** The two reserved names, set in [kwargs] when the handler declares
    them. *)
Definition inject (sig : list param) (request : json)
  (kwargs : list (string * pyval)) : list (string * pyval) :=
  let kwargs :=
    if Signature.declares "plugin" sig
    then Dict.set "plugin" PPlugin kwargs else kwargs in
  if Signature.declares "request" sig
  then Dict.set "request" (PJson request) kwargs else kwargs.

(** [_init(options, configuration, request)], given [self._dispatch]. *)
Definition _init (dispatch : json -> M pyval)
  (options configuration request : pyval) : M pyval :=
  self <- get_self ;;
  match init self with
  | Some f =>
      modify (set_methods (Dict.set "init" f (methods self))) ;;;
      modify (set_init None) ;;;
      match request with
      | PJson r => dispatch r
      | PPlugin => raise (TypeError "'Plugin' object is not subscriptable")
      end
  | None => ret (PJson JNull)
  end.

(** The call of [func] on the bound arguments.  [_init] takes the three
    parameters its signature declares; [dispatch] is [self._dispatch],
    absent when the fuel is used up.  A user function is represented by
    what it returns or raises on its arguments; what it may do to the
    plugin object it is handed is not represented. *)
Definition call (dispatch : option (json -> M pyval)) (f : handler)
  (ba : list (string * pyval)) : M pyval :=
  match f with
  | Getmanifest => _getmanifest
  | User u => modify (log_call (fname u) ba) ;;; lift (fbody u ba)
  | Init =>
      match dispatch with
      | None => out_of_fuel
      | Some dispatch =>
          match ba with
          | [(_, options); (_, configuration); (_, request)] =>
              _init dispatch options configuration request
          | _ => raise (TypeError "unreachable: three parameters are bound")
          end
      end
  end.

(** The recursion of [_dispatch] through [_init], one level less. *)
Definition nested (dispatch : nat -> json -> M pyval) (fuel : nat)
  : option (json -> M pyval) :=
  match fuel with
  | O => None
  | S fuel' => Some (dispatch fuel')
  end.

(** The fuel bounds the nesting of [_dispatch] inside [_init]; two units
    are always enough. *)
Fixpoint _dispatch (fuel : nat) (request : json) : M pyval :=
  name <- getitem request "method" ;;
  params <- getitem request "params" ;;
  f <- find_method name ;;
  let args := positional params in
  let kwargs := inject (signature f) request (keywords params) in
  ba <- lift (Signature.bind_args (signature f) args kwargs) ;;
  call (nested _dispatch fuel) f ba.

(** The dictionary [result] that [_multi_dispatch] builds for one
    message. *)
Inductive response : Type :=
| Success (result : pyval) (id : json)
| Failure (method : json) (id : json).

(** [json.dump(result, fp=self.stdout)], the delimiter and the flush.
    [json.dump] writes the document piece by piece: a handler result that
    is no JSON value raises [TypeError] once the pieces before it are
    on the stream. *)
Definition dump_response (r : response) : M unit :=
  match r with
  | Success (PJson j) id => modify (write_frame (FResult j id))
  | Success PPlugin _ =>
      modify (write_frame FTruncated) ;;;
      raise (TypeError "Object of type Plugin is not JSON serializable")
  | Failure method id => modify (write_frame (FError method id))
  end.

Section ReadLoop.

(** [json.loads], from the standard library: [None] when it raises
    [JSONDecodeError]. *)
Variable loads : string -> option json.

Definition json_loads (payload : string) : M json :=
  match loads payload with
  | Some j => ret j
  | None => raise (JSONDecodeError payload)
  end.

(** The body of the [for] loop of [_multi_dispatch]. *)
Definition respond (fuel : nat) (payload : string) : M unit :=
  request <- json_loads payload ;;
  result <- try_except
              (r <- _dispatch fuel request ;;
               id <- getitem request "id" ;;
               ret (Success r id))
              (fun e =>
                 method <- getitem request "method" ;;
                 id <- getitem request "id" ;;
                 log (FormatExc e) "info" ;;;
                 ret (Failure method id)) ;;
  dump_response result.

Fixpoint respond_all (fuel : nat) (payloads : list string) : M unit :=
  match payloads with
  | [] => ret tt
  | payload :: payloads' =>
      respond fuel payload ;;; respond_all fuel payloads'
  end.

Definition _multi_dispatch (fuel : nat) (msgs : list string) : M string :=
  respond_all fuel (Text.but_last msgs) ;;;
  ret (Text.last_seg msgs).

(** The first lines of [run]: stash the user's [init] handler. *)
Definition stash_init : M unit :=
  self <- get_self ;;
  match Dict.get "init" (methods self) with
  | Some f =>
      modify (set_init (Some f)) ;;;
      modify (set_methods (Dict.set "init" Init (methods self)))
  | None => ret tt
  end.

(** The [for] loop of [run] over what [self.stdin] yields; the value is
    [partial] when the input ends. *)
Fixpoint read_loop (fuel : nat) (partial : string) (stdin : list string)
  : M string :=
  match stdin with
  | [] => ret partial
  | l :: stdin' =>
      let partial := partial ++ l in
      let msgs := Text.split_nlnl partial in
      if Nat.ltb (length msgs) 2 then read_loop fuel partial stdin'
      else
        partial' <- _multi_dispatch fuel msgs ;;
        read_loop fuel partial' stdin'
  end.

Definition run (fuel : nat) (stdin : list string) : M string :=
  stash_init ;;;
  read_loop fuel "" stdin.

End ReadLoop.

(** ** class PluginStream *)

Record PluginStream : Type := { level : string; buff : string }.

Definition PluginStream_new (level : string) : PluginStream :=
  {| level := level; buff := "" |}.

Module Stream.

(** The methods of a stream act on the stream and on its plugin. *)
Definition S (A : Type) : Type :=
  PluginStream -> Plugin -> res A * PluginStream * Plugin.

Fixpoint log_lines (lines : list string) (level : string) : M unit :=
  match lines with
  | [] => ret tt
  | l :: lines' => log (Text l) level ;;; log_lines lines' level
  end.

Definition flush : S unit :=
  fun self plugin =>
    let lines := Text.split_nl (buff self) in
    if Nat.ltb (length lines) 2 then (Ok tt, self, plugin)
    else
      match log_lines (Text.but_last lines) (level self) plugin with
      | (Ok _, plugin') =>
          (Ok tt, {| level := level self; buff := Text.last_seg lines |},
           plugin')
      | (Exc e, plugin') => (Exc e, self, plugin')
      | (OutOfFuel, plugin') => (OutOfFuel, self, plugin')
      end.

Definition write (payload : string) : S unit :=
  fun self plugin =>
    let self := {| level := level self; buff := buff self ++ payload |} in
    match Text.last_char payload with
    | None => (Exc IndexError, self, plugin)
    | Some c =>
        if Ascii.eqb c Text.nl then flush self plugin
        else (Ok tt, self, plugin)
    end.

End Stream.

(** ** A decoder for the examples *)

(** [json.loads] on the fragment of JSON without fractions, exponents and
    string escapes, which is all the examples below use; on a text
    outside the fragment it answers [None].  The theorems hold for any
    decoder; this one instantiates them. *)
Module MiniJson.

Definition quote : ascii := "034"%char.

(** Writes the examples with ['] where the wire has a double quote. *)
Fixpoint dq (s : string) : string :=
  match s with
  | "" => ""
  | String c rest =>
      String (if Ascii.eqb c "'"%char then quote else c) (dq rest)
  end.

Definition is_ws (c : ascii) : bool :=
  (Ascii.eqb c " "%char || Ascii.eqb c "010"%char
   || Ascii.eqb c "009"%char || Ascii.eqb c "013"%char)%bool.

Fixpoint skip_ws (s : string) : string :=
  match s with
  | String c rest => if is_ws c then skip_ws rest else s
  | "" => ""
  end.

Definition digit (c : ascii) : option Z :=
  let n := Z.of_nat (nat_of_ascii c) in
  if ((48 <=? n) && (n <=? 57))%Z%bool then Some (n - 48)%Z else None.

Fixpoint digits (acc : Z) (s : string) : Z * string :=
  match s with
  | String c rest =>
      match digit c with
      | Some d => digits (10 * acc + d)%Z rest
      | None => (acc, s)
      end
  | "" => (acc, "")
  end.

(** The characters up to the closing quote. *)
Fixpoint chars (s : string) : option (string * string) :=
  match s with
  | "" => None
  | String c rest =>
      if Ascii.eqb c quote then Some ("", rest)
      else if Ascii.eqb c "\"%char then None
      else
        match chars rest with
        | Some (t, rest') => Some (String c t, rest')
        | None => None
        end
  end.

(** A zero is a number on its own: no digit may follow it. *)
Definition number (s : string) : option (json * string) :=
  match s with
  | String c rest =>
      match digit c with
      | Some 0%Z => Some (JNum 0, rest)
      | Some _ => let (n, rest') := digits 0 s in Some (JNum n, rest')
      | None => None
      end
  | "" => None
  end.

Fixpoint value (fuel : nat) (s : string) : option (json * string) :=
  match fuel with
  | O => None
  | S fuel' =>
      match skip_ws s with
      | String "n" (String "u" (String "l" (String "l" rest))) =>
          Some (JNull, rest)
      | String "t" (String "r" (String "u" (String "e" rest))) =>
          Some (JBool true, rest)
      | String "f" (String "a" (String "l" (String "s" (String "e" rest)))) =>
          Some (JBool false, rest)
      | String "-" rest =>
          match number rest with
          | Some (JNum n, rest') => Some (JNum (- n), rest')
          | _ => None
          end
      | String "[" rest =>
          match skip_ws rest with
          | String "]" rest' => Some (JArr [], rest')
          | _ =>
              match items fuel' rest with
              | Some (l, rest') => Some (JArr l, rest')
              | None => None
              end
          end
      | String "{" rest =>
          match skip_ws rest with
          | String "}" rest' => Some (JObj [], rest')
          | _ =>
              match members fuel' [] rest with
              | Some (d, rest') => Some (JObj d, rest')
              | None => None
              end
          end
      | String c rest =>
          if Ascii.eqb c quote then
            match chars rest with
            | Some (t, rest') => Some (JStr t, rest')
            | None => None
            end
          else number (String c rest)
      | "" => None
      end
  end

with items (fuel : nat) (s : string) : option (list json * string) :=
  match fuel with
  | O => None
  | S fuel' =>
      match value fuel' s with
      | Some (v, rest) =>
          match skip_ws rest with
          | String "," rest' =>
              match items fuel' rest' with
              | Some (l, rest'') => Some (v :: l, rest'')
              | None => None
              end
          | String "]" rest' => Some ([v], rest')
          | _ => None
          end
      | None => None
      end
  end

with members (fuel : nat) (acc : list (string * json)) (s : string)
  : option (list (string * json) * string) :=
  match fuel with
  | O => None
  | S fuel' =>
      match skip_ws s with
      | String c rest =>
          if Ascii.eqb c quote then
            match chars rest with
            | Some (k, rest') =>
                match skip_ws rest' with
                | String ":" rest'' =>
                    match value fuel' rest'' with
                    | Some (v, rest3) =>
                        let acc := Dict.set k v acc in
                        match skip_ws rest3 with
                        | String "," rest4 => members fuel' acc rest4
                        | String "}" rest4 => Some (acc, rest4)
                        | _ => None
                        end
                    | None => None
                    end
                | _ => None
                end
            | None => None
            end
          else None
      | "" => None
      end
  end.

Definition loads (s : string) : option json :=
  match value (S (String.length s)) s with
  | Some (v, rest) =>
      match skip_ws rest with
      | "" => Some v
      | _ => None
      end
  | None => None
  end.

End MiniJson.


(** ** Concrete plugins and inputs *)

Module Examples.
Import Text MiniJson.

Definition getmanifest_1 : string :=
  dq "{'jsonrpc':'2.0','method':'getmanifest','params':[],'id':1}".
Definition getmanifest_2 : string :=
  dq "{'jsonrpc':'2.0','method':'getmanifest','params':{},'id':2}".

(** Two complete frames and the beginning of a third. *)
Definition two_and_a_half : string :=
  getmanifest_1 ++ NLNL ++ getmanifest_2 ++ NLNL ++ "PARTIAL".


Definition nope : string := dq "{'method':'nope','params':{},'id':1}".

Definition no_id : string := dq "{'method':'getmanifest','params':[]}".

Definition init_request : string :=
  dq "{'method':'init','params':{'options':{},'configuration':{}},'id':7}".

(** [def hello(name='world'): return 'hello ' + name], documented. *)
Definition hello : func :=
  {| fname := "hello";
     fparams := [{| pname := "name";
                    pdefault := Some (PJson (JStr "world")) |}];
     fdoc := Some "Greets the caller.";
     fbody := fun ba =>
       match Dict.get "name" ba with
       | Some (PJson (JStr n)) => Return (PJson (JStr ("hello " ++ n)))
       | _ => Raise (TypeError "can only concatenate str to str")
       end |}.

(** [def whoami(plugin=None): return plugin is the_plugin_object]. *)
Definition whoami : func :=
  {| fname := "whoami";
     fparams := [{| pname := "plugin"; pdefault := Some (PJson JNull) |}];
     fdoc := None;
     fbody := fun ba =>
       match Dict.get "plugin" ba with
       | Some PPlugin => Return (PJson (JBool true))
       | _ => Return (PJson (JBool false))
       end |}.

(** [def on_init(options, configuration): return 'ready'], registered
    as the plugin's [init]. *)
Definition on_init : func :=
  {| fname := "on_init";
     fparams := [Signature.required "options";
                 Signature.required "configuration"];
     fdoc := Some "Called once by lightningd.";
     fbody := fun _ => Return (PJson (JStr "ready")) |}.

(** [def boom(): raise RuntimeError()]. *)
Definition boom : func :=
  {| fname := "boom"; fparams := []; fdoc := None;
     fbody := fun _ => Raise (HandlerError "RuntimeError") |}.

(** The plugin objects after the registrations named. *)
Definition with_methods (ms : list (string * handler)) : Plugin :=
  {| methods := ("getmanifest", Getmanifest) :: ms; init := None;
     stdout := []; calls := [] |}.

Definition greeter : Plugin :=
  with_methods [("hello", User hello); ("whoami", User whoami);
                ("boom", User boom)].

Definition with_init : Plugin := with_methods [("init", User on_init)].

Definition info (message : text) : frame :=
  FNotification "log" [("level", Text "info"); ("message", message)].

End Examples.


(** ** The decorator, the patched streams and the vocabulary of the
    further properties *)

(** [@plugin.method(method_name)] applied to [f]: registers [f] and
    returns it. *)
Definition method (method_name : string) (f : handler) : M handler :=
  add_method method_name f ;;;
  ret f.

(** The two attributes of the module [sys] that [monkey_patch] sets:
    [None] stands for the stream of the process, [Some] for a
    [PluginStream] put in its place. *)
Record Sys : Type := {
  sys_stdout : option PluginStream;
  sys_stderr : option PluginStream
}.

Definition Sys_new : Sys := {| sys_stdout := None; sys_stderr := None |}.

(** [monkey_patch(plugin, stdout=True, stderr=False)], with the two
    flags given. *)
Definition monkey_patch (stdout stderr : bool) (sys : Sys) : Sys :=
  let sys :=
    if stdout
    then {| sys_stdout := Some (PluginStream_new "info");
            sys_stderr := sys_stderr sys |}
    else sys in
  if stderr
  then {| sys_stdout := sys_stdout sys;
          sys_stderr := Some (PluginStream_new "warn") |}
  else sys.

(** The log notification for one line at a level. *)
Definition log_line (lvl : string) (l : string) : frame :=
  FNotification "log" [("level", Text lvl); ("message", Text l)].

(** The text of a list of lines, each with its newline. *)
Definition terminated (lines : list string) : string :=
  fold_right (fun l acc => l ++ Text.NL ++ acc) "" lines.

(** The warning of [_getmanifest] about a function without docstring. *)
Definition undocumented_warning (name : string) : frame :=
  log_line "info" ("RPC method '" ++ name ++ "' does not have a docstring.").

Definition has_doc (f : handler) : bool :=
  match getdoc f with
  | Some (String _ _) => true
  | _ => false
  end.

(** [def quit(): sys.exit(0)] and [def me(plugin): return plugin]. *)
Definition quit : func :=
  {| fname := "quit"; fparams := []; fdoc := None;
     fbody := fun _ => Raise (HandlerExit "SystemExit") |}.

Definition me : func :=
  {| fname := "me"; fparams := [Signature.required "plugin"];
     fdoc := Some "Returns the plugin.";
     fbody := fun ba =>
       match Dict.get "plugin" ba with
       | Some v => Return v
       | None => Raise (KeyError "plugin")
       end |}.

Definition misbehaved : Plugin :=
  Examples.with_methods [("quit", User quit); ("me", User me)].
Example loads_request :
  MiniJson.loads (MiniJson.dq "{'method':'nope','params':{},'id':1}")
  = Some (JObj [("method", JStr "nope"); ("params", JObj []); ("id", JNum 1)]).
Proof. vm_compute. reflexivity. Qed.

Example loads_nested :
  MiniJson.loads (MiniJson.dq "{'a': [1, -2, true, null], 'a': {'b': 'c'}} ")
  = Some (JObj [("a", JObj [("b", JStr "c")])]).
Proof. vm_compute. reflexivity. Qed.

Example loads_garbage : MiniJson.loads "PARTIAL" = None.
Proof. vm_compute. reflexivity. Qed.

Example loads_leading_zero : MiniJson.loads "01" = None.
Proof. vm_compute. reflexivity. Qed.

Example loads_empty : MiniJson.loads "" = None.
Proof. vm_compute. reflexivity. Qed.

Example split_frames :
  Text.split_nlnl ("a" ++ Text.NLNL ++ "b" ++ Text.NLNL ++ "PARTIAL")
  = ["a"; "b"; "PARTIAL"].
Proof. vm_compute. reflexivity. Qed.

Example split_three_newlines :
  Text.split_nlnl (Text.NLNL ++ Text.NL) = [""; Text.NL].
Proof. vm_compute. reflexivity. Qed.

Example split_lines :
  Text.split_nl ("alpha" ++ Text.NL ++ "beta") = ["alpha"; "beta"].
Proof. vm_compute. reflexivity. Qed.

(** ** Splitting on the frame delimiter *)

Module TextFacts.
Import Text.

Lemma split_delim (r : string) :
  split_nlnl (String nl (String nl r)) = "" :: split_nlnl r.
Proof. reflexivity. Qed.

Lemma split_plain (c : ascii) (r : string) :
  starts_delim (String c r) = false ->
  split_nlnl (String c r) = cons_head c (split_nlnl r).
Proof.
  destruct r as [|d r']; [reflexivity|].
  cbn [starts_delim]. intros H. cbn [split_nlnl]. rewrite H. reflexivity.
Qed.

(** Induction along the cases of [split_nlnl]. *)
Lemma split_nlnl_ind (P : string -> Prop) :
  P "" ->
  (forall r, P r -> P (String nl (String nl r))) ->
  (forall c r, starts_delim (String c r) = false -> P r -> P (String c r)) ->
  forall s, P s.
Proof.
  intros H0 Hd Hp s.
  assert (H : P s /\ forall c, P (String c s)).
  { induction s as [|d r [IH1 IH2]].
    - split; [exact H0|]. intros c. apply Hp; [reflexivity|exact H0].
    - split; [apply IH2|]. intros c.
      destruct (starts_delim (String c (String d r))) eqn:E.
      + cbn [starts_delim] in E. apply andb_prop in E. destruct E as [Ec Ed].
        apply Ascii.eqb_eq in Ec, Ed. subst c d. apply Hd, IH1.
      + apply Hp; [exact E|apply IH2]. }
  exact (proj1 H).
Qed.

Lemma split_nonempty (s : string) : split_nlnl s <> [].
Proof.
  induction s using split_nlnl_ind.
  - discriminate.
  - rewrite split_delim. discriminate.
  - rewrite split_plain by assumption.
    destruct (split_nlnl s); discriminate.
Qed.

(** A split that finds no delimiter returns the text itself. *)
Lemma split_single (s h : string) : split_nlnl s = [h] -> h = s.
Proof.
  revert h. induction s using split_nlnl_ind; intros h.
  - cbn. congruence.
  - rewrite split_delim. intros E. injection E as _ E.
    exfalso. exact (split_nonempty _ E).
  - rewrite split_plain by assumption.
    destruct (split_nlnl s) as [|h' t] eqn:E.
    + exfalso. exact (split_nonempty _ E).
    + cbn. intros E'. injection E' as <- ->. f_equal. apply IHs. reflexivity.
Qed.

(** A segment that is not empty starts where the text starts. *)
Lemma split_head (s : string) (d : ascii) (h : string) (t : list string) :
  split_nlnl s = String d h :: t -> exists r, s = String d r.
Proof.
  destruct s as [|c r]; [discriminate|].
  destruct (starts_delim (String c r)) eqn:E.
  - destruct r as [|d' r']; [discriminate|].
    cbn [starts_delim] in E. cbn [split_nlnl]. rewrite E. discriminate.
  - rewrite split_plain by assumption.
    destruct (split_nlnl r); cbn; intros E'; injection E' as -> _; eauto.
Qed.

(** No segment holds a delimiter. *)
Lemma split_segments (s x : string) :
  In x (split_nlnl s) -> split_nlnl x = [x].
Proof.
  revert x. induction s using split_nlnl_ind; intros x.
  - cbn. intros [<-|[]]. reflexivity.
  - rewrite split_delim. intros [<-|Hin]; [reflexivity|auto].
  - rewrite split_plain by assumption.
    destruct (split_nlnl s) as [|h t] eqn:E.
    + exfalso. exact (split_nonempty _ E).
    + cbn [cons_head]. intros [<-|Hin].
      * assert (Hh : split_nlnl h = [h]) by (apply IHs; left; reflexivity).
        destruct h as [|d h'].
        -- reflexivity.
        -- destruct (split_head _ _ _ _ E) as [r' ->].
           rewrite split_plain by exact H.
           rewrite Hh. reflexivity.
      * apply IHs. right. exact Hin.
Qed.

Lemma but_last_cons {A} (a : A) (l : list A) :
  l <> [] -> but_last (a :: l) = a :: but_last l.
Proof. destruct l; [congruence|reflexivity]. Qed.

Lemma last_seg_cons (a : string) (l : list string) :
  l <> [] -> last_seg (a :: l) = last_seg l.
Proof. destruct l; [congruence|reflexivity]. Qed.

Lemma last_seg_in (l : list string) : l <> [] -> In (last_seg l) l.
Proof.
  induction l as [|a l IH]; [congruence|]. intros _.
  destruct l as [|b l]; [left; reflexivity|].
  right. apply IH. discriminate.
Qed.

Lemma but_last_app {A} (l1 l2 : list A) :
  l2 <> [] -> but_last (l1 ++ l2)%list = (l1 ++ but_last l2)%list.
Proof. apply removelast_app. Qed.

Lemma last_seg_app (l1 l2 : list string) :
  l2 <> [] -> last_seg (l1 ++ l2)%list = last_seg l2.
Proof.
  intros H. induction l1 as [|a l1 IH]; [reflexivity|].
  cbn [app]. rewrite last_seg_cons; [exact IH|].
  destruct l1; [exact H|discriminate].
Qed.

(** Splitting a longer text: the complete segments found so far stay,
    and the search goes on in what follows them. *)
Lemma split_app (a b : string) :
  split_nlnl (a ++ b)
  = (but_last (split_nlnl a)
     ++ split_nlnl (last_seg (split_nlnl a) ++ b))%list.
Proof.
  induction a using split_nlnl_ind.
  - reflexivity.
  - cbn [String.append]. rewrite !split_delim.
    rewrite but_last_cons, last_seg_cons by apply split_nonempty.
    rewrite IHa. reflexivity.
  - destruct (split_nlnl a) as [|h t] eqn:E.
    { exfalso. exact (split_nonempty _ E). }
    rewrite (split_plain c a) by assumption. rewrite E. cbn [cons_head].
    destruct t as [|h' t].
    + apply split_single in E. subst h. reflexivity.
    + assert (Hs : starts_delim (String c (a ++ b)) = false).
      { destruct a as [|d a']; [discriminate E|exact H]. }
      cbn [String.append]. rewrite split_plain by exact Hs.
      rewrite IHa, ?E.
      rewrite (but_last_cons h), (but_last_cons (String c h)),
        (last_seg_cons h), (last_seg_cons (String c h)) by discriminate.
      reflexivity.
Qed.

Lemma append_nil_r (s : string) : s ++ "" = s.
Proof. induction s; cbn; congruence. Qed.

Lemma append_assoc (a b c : string) : (a ++ b) ++ c = a ++ (b ++ c).
Proof. induction a; cbn; congruence. Qed.

Lemma split_short (s : string) :
  Nat.ltb (length (split_nlnl s)) 2 = true -> split_nlnl s = [s].
Proof.
  destruct (split_nlnl s) as [|h [|h' t]] eqn:E.
  - exfalso. exact (split_nonempty _ E).
  - intros _. apply split_single in E. congruence.
  - discriminate.
Qed.

End TextFacts.

(** ** The read loop *)

Section ReadLoopFacts.

Variable loads : string -> option json.

Lemma respond_all_app (fuel : nat) (a b : list string) (self : Plugin) :
  respond_all loads fuel (a ++ b) self
  = (respond_all loads fuel a ;;; respond_all loads fuel b) self.
Proof.
  revert self. induction a as [|x a IH]; intros self.
  - reflexivity.
  - cbn [app respond_all]. unfold bind.
    destruct (respond loads fuel x self) as [[[]|e|] self']; try reflexivity.
    rewrite IH. reflexivity.
Qed.

(** The loop dispatches what a split of the whole input finds, whatever
    the pieces the input arrives in. *)
Lemma read_loop_frames (fuel : nat) (stdin : list string) :
  forall (partial : string) (self : Plugin),
    Text.split_nlnl partial = [partial] ->
    read_loop loads fuel partial stdin self
    = (respond_all loads fuel
         (Text.but_last (Text.split_nlnl (partial ++ Text.join stdin))) ;;;
       ret (Text.last_seg (Text.split_nlnl (partial ++ Text.join stdin))))
        self.
Proof.
  induction stdin as [|l stdin IH]; intros partial self Hp.
  - cbn [Text.join fold_right read_loop].
    rewrite TextFacts.append_nil_r, Hp. reflexivity.
  - cbn [Text.join fold_right read_loop]. fold (Text.join stdin).
    rewrite <- TextFacts.append_assoc.
    destruct (Nat.ltb _ 2) eqn:E.
    + apply IH. apply TextFacts.split_short. exact E.
    + rewrite (TextFacts.split_app (partial ++ l)).
      set (msgs := Text.split_nlnl (partial ++ l)) in *.
      assert (Hlast : Text.split_nlnl (Text.last_seg msgs)
                      = [Text.last_seg msgs]).
      { apply (TextFacts.split_segments (partial ++ l)).
        apply TextFacts.last_seg_in, TextFacts.split_nonempty. }
      rewrite TextFacts.but_last_app, TextFacts.last_seg_app
        by apply TextFacts.split_nonempty.
      unfold _multi_dispatch, bind.
      rewrite respond_all_app. unfold bind.
      destruct (respond_all loads fuel (Text.but_last msgs) self)
        as [[[]|e|] self']; try reflexivity.
      cbn [ret]. rewrite (IH _ _ Hlast). reflexivity.
Qed.

End ReadLoopFacts.

(** ** Framing (C1) *)


Lemma join_lines_from (s cur : string) :
  Text.join (Text.lines_from cur s) = cur ++ s.
Proof.
  revert cur. induction s as [|c s IH]; intros cur.
  - destruct cur; cbn; [reflexivity|].
    now rewrite !TextFacts.append_nil_r.
  - cbn [Text.lines_from]. destruct (Ascii.eqb c Text.nl).
    + cbn [Text.join fold_right]. fold (Text.join (Text.lines_from "" s)).
      rewrite IH, TextFacts.append_assoc. reflexivity.
    + rewrite IH, TextFacts.append_assoc. reflexivity.
Qed.

(** Reading line by line loses nothing of the input. *)
Lemma join_lines (s : string) : Text.join (Text.lines s) = s.
Proof. apply join_lines_from. Qed.

(** ** Facts about [_dispatch] *)

Ltac run_monad :=
  repeat (cbn [fst snd ret raise lift modify get_self out_of_fuel] in *;
          unfold bind, ret, raise, lift, modify, get_self, out_of_fuel in *).

Lemma bind_keywords_raises (sig : list param) :
  forall kwargs e,
    Signature.bind_keywords sig kwargs = Raise e -> is_Exception e = true.
Proof.
  induction sig as [|p sig IH]; intros kwargs e; cbn.
  - destruct kwargs as [|[k v] kwargs]; [discriminate|].
    intros [= <-]. reflexivity.
  - destruct (match Dict.get (pname p) kwargs with
              | Some v => Some v
              | None => pdefault p
              end) as [v|].
    + destruct (Signature.bind_keywords sig _) eqn:E; [discriminate|].
      intros [= <-]. eapply IH, E.
    + intros [= <-]. reflexivity.
Qed.

Lemma bind_args_raises (sig : list param) (args : list pyval) :
  forall kwargs e,
    Signature.bind_args sig args kwargs = Raise e -> is_Exception e = true.
Proof.
  revert sig. induction args as [|a args IH]; intros sig kwargs e; cbn.
  - apply bind_keywords_raises.
  - destruct sig as [|p sig]; [intros [= <-]; reflexivity|].
    destruct (Dict.mem (pname p) kwargs); [intros [= <-]; reflexivity|].
    destruct (Signature.bind_args sig args kwargs) eqn:E; [discriminate|].
    intros [= <-]. eapply IH, E.
Qed.

(** [_dispatch] either raises before the call, leaving the plugin as it
    was, or calls the function it found on the arguments it bound. *)
Lemma dispatch_cases (fuel : nat) (request : json) (self : Plugin) :
  (exists e, is_Exception e = true
             /\ _dispatch fuel request self = (Exc e, self))
  \/ (exists f ba,
         _dispatch fuel request self
         = call (nested _dispatch fuel) f ba self).
Proof.
  destruct fuel; cbn [_dispatch];
    unfold getitem, find_method;
    (destruct request as [| | | |items|d]; run_monad;
     try (left; eexists; split; [|reflexivity]; reflexivity);
     destruct (Dict.get "method" d) as [name|]; run_monad;
     try (left; eexists; split; [|reflexivity]; reflexivity);
     destruct (Dict.get "params" d) as [params|]; run_monad;
     try (left; eexists; split; [|reflexivity]; reflexivity);
     destruct name as [| | |s| |]; run_monad;
     try (left; eexists; split; [|reflexivity]; reflexivity);
     destruct (Dict.get s (methods self)) as [f|]; run_monad;
     try (left; eexists; split; [|reflexivity]; reflexivity);
     destruct (Signature.bind_args _ _ _) as [ba|e] eqn:Eb; run_monad;
     [right; eauto|];
     left; eexists; split; [|reflexivity];
     eapply bind_args_raises, Eb).
Qed.

(** The loop of [_getmanifest] never fails; it writes warnings only. *)
Lemma manifest_methods_spec (items : list (string * handler)) :
  forall self, exists self',
    manifest_methods items self
    = (Ok (map (fun nf => rpcmethod (fst nf) (description (snd nf)))
             (filter (fun nf => negb (is_builtin (fst nf))) items)), self')
    /\ methods self' = methods self /\ init self' = init self
    /\ calls self' = calls self.
Proof.
  induction items as [|[name f] items IH]; intros self.
  - exists self. repeat split; reflexivity.
  - cbn [manifest_methods filter fst snd].
    destruct (is_builtin name); cbn [negb].
    + apply IH.
    + cbn [map fst snd].
      assert (Hd : description f
                   = match getdoc f with
                     | Some (String c d) => String c d
                     | _ => undocumented
                     end) by reflexivity.
      rewrite Hd. clear Hd.
      destruct (getdoc f) as [[|c d]|]; unfold log, notify; run_monad;
        match goal with
        | |- context [manifest_methods items ?s] =>
            destruct (IH s) as (self' & -> & Hm & Hi & Hc)
        end;
        exists self'; repeat split;
        (reflexivity || (etransitivity; [eassumption|reflexivity])).
Qed.

Lemma getmanifest_ok (self : Plugin) :
  exists v self', _getmanifest self = (Ok v, self').
Proof.
  unfold _getmanifest. run_monad.
  destruct (manifest_methods_spec (methods self) self) as (self' & -> & _).
  eauto.
Qed.

(** With the stash empty, one unit of fuel is enough. *)
Lemma dispatch_total_unstashed (fuel : nat) (request : json) (self : Plugin) :
  init self = None -> fst (_dispatch (S fuel) request self) <> OutOfFuel.
Proof.
  intros Hinit.
  destruct (dispatch_cases (S fuel) request self) as [(e & _ & ->)|(f & ba & ->)];
    [discriminate|].
  destruct f as [| |u]; cbn [call nested].
  - destruct (getmanifest_ok self) as (v & self' & ->). discriminate.
  - destruct ba as [|[? o] [|[? c] [|[? r] [|]]]]; try discriminate.
    unfold _init. run_monad. rewrite Hinit. discriminate.
  - run_monad. destruct (fbody u ba); discriminate.
Qed.

(** Two units of fuel are always enough: [_dispatch] returns or raises. *)
Lemma dispatch_total (fuel : nat) (request : json) (self : Plugin) :
  fst (_dispatch (S (S fuel)) request self) <> OutOfFuel.
Proof.
  destruct (dispatch_cases (S (S fuel)) request self)
    as [(e & _ & ->)|(f & ba & ->)]; [discriminate|].
  destruct f as [| |u]; cbn [call nested].
  - destruct (getmanifest_ok self) as (v & self' & ->). discriminate.
  - destruct ba as [|[? o] [|[? c] [|[? r] [|]]]]; try discriminate.
    unfold _init. run_monad.
    destruct (init self) as [f|]; [|discriminate].
    destruct r as [r|]; [|discriminate].
    apply dispatch_total_unstashed. reflexivity.
  - run_monad. destruct (fbody u ba); discriminate.
Qed.

(** ** The manifest (C9) *)

(** C9.  The result of [_getmanifest] lists, under [rpcmethods] and in
    the order of registration, one object with the name and the
    description of every method of the table except [getmanifest] and
    [init], which it never lists; the description is the docstring, or
    the placeholder for a function without one; the table itself is left
    as it was. *)
Theorem C9_getmanifest_listing :
  forall self : Plugin,
    let listed :=
      filter (fun nf => negb (is_builtin (fst nf))) (methods self) in
    (exists self',
        _getmanifest self
        = (Ok (PJson
                 (JObj [("options", JArr []);
                        ("rpcmethods",
                         JArr (map
                                 (fun nf =>
                                    JObj [("name", JStr (fst nf));
                                          ("description",
                                           JStr
                                             match getdoc (snd nf) with
                                             | Some (String c d) => String c d
                                             | _ =>
                                                 "Undocumented RPC method from a plugin."
                                             end)])
                                 listed))])), self')
        /\ methods self' = methods self)
    /\ (forall name f,
           In (name, f) listed
           <-> In (name, f) (methods self)
               /\ name <> "getmanifest" /\ name <> "init").
Proof.
  intros self listed. split.
  - unfold _getmanifest. run_monad.
    destruct (manifest_methods_spec (methods self) self)
      as (self' & -> & Hm & _).
    exists self'. split; [reflexivity|exact Hm].
  - intros name f. unfold listed. rewrite filter_In. cbn [fst].
    unfold is_builtin. rewrite negb_true_iff, orb_false_iff.
    rewrite !String.eqb_neq. reflexivity.
Qed.

(** ** Registration (C7) *)

Lemma add_method_fresh (name : string) (f : handler) (self : Plugin) :
  Dict.get name (methods self) = None ->
  add_method name f self
  = (Ok tt, set_methods (Dict.set name f (methods self)) self).
Proof.
  intros H. unfold add_method, Dict.mem. run_monad. rewrite H. reflexivity.
Qed.

(** C7.  Registering under a name that is already bound raises
    [ValueError] and leaves the plugin, and with it the table, as it was:
    the name is still bound to the first handler. *)
Theorem C7_add_method_duplicate :
  forall (name : string) (first second : handler) (self : Plugin),
    Dict.get name (methods self) = Some first ->
    add_method name second self = (Exc (ValueError_bound name), self)
    /\ Dict.get name (methods (snd (add_method name second self)))
       = Some first.
Proof.
  intros name first second self H.
  assert (E : add_method name second self
              = (Exc (ValueError_bound name), self)).
  { unfold add_method, Dict.mem. run_monad. rewrite H. reflexivity. }
  rewrite E. split; [reflexivity|exact H].
Qed.

Lemma C7_add_method_duplicate_witness :
  add_method "getmanifest" (User Examples.hello) Plugin_new
  = (Exc (ValueError_bound "getmanifest"), Plugin_new)
  /\ Dict.get "getmanifest"
       (methods (snd (add_method "getmanifest" (User Examples.hello)
                        Plugin_new)))
     = Some Getmanifest.
Proof.
  apply (C7_add_method_duplicate "getmanifest" Getmanifest
           (User Examples.hello) Plugin_new).
  reflexivity.
Defined.

(** ** Reserved parameters (C5) *)

Lemma get_set_same {V} (k : string) (v : V) (d : list (string * V)) :
  Dict.get k (Dict.set k v d) = Some v.
Proof.
  induction d as [|[k' v'] d IH]; cbn.
  - rewrite String.eqb_refl. reflexivity.
  - destruct (String.eqb k k') eqn:E; cbn; rewrite ?String.eqb_refl, ?E; auto.
Qed.

Lemma get_set_other {V} (k k' : string) (v : V) (d : list (string * V)) :
  String.eqb k k' = false ->
  Dict.get k (Dict.set k' v d) = Dict.get k d.
Proof.
  intros Hk. induction d as [|[k2 v2] d IH]; cbn.
  - rewrite Hk. reflexivity.
  - destruct (String.eqb k' k2) eqn:E; cbn.
    + apply String.eqb_eq in E. subst k2. rewrite Hk. reflexivity.
    + rewrite IH. reflexivity.
Qed.

(** C5 as stated fails: a caller supplies [plugin] by name to a handler
    that declares it, and the handler receives the plugin object, not the
    caller's value. *)
Lemma C5_inject_overwrites :
  let request :=
    JObj [("method", JStr "whoami");
          ("params", JObj [("plugin", JNum 5)]); ("id", JNum 1)] in
  let kwargs := keywords (JObj [("plugin", JNum 5)]) in
  Signature.declares "plugin" (fparams Examples.whoami) = true
  /\ Dict.get "plugin" kwargs = Some (PJson (JNum 5))
  /\ Dict.get "plugin" (inject (fparams Examples.whoami) request kwargs)
     <> Some (PJson (JNum 5))
  /\ calls (snd (_dispatch 2 request Examples.greeter))
     = [("whoami", [("plugin", PPlugin)])].
Proof.
  cbv zeta. repeat split; try reflexivity. vm_compute. discriminate.
Qed.

(** C5, amended.  After the injection a reserved name that the handler
    declares is bound to the plugin, respectively to the raw request,
    whether the caller supplied it or not; every other keyword, and a
    reserved name that the handler does not declare, is as the caller
    supplied it. *)
Theorem C5_inject_reserved :
  forall (sig : list param) (request : json)
         (kwargs : list (string * pyval)) (k : string),
    Dict.get k (inject sig request kwargs)
    = if (String.eqb k "request" && Signature.declares "request" sig)%bool
      then Some (PJson request)
      else if (String.eqb k "plugin" && Signature.declares "plugin" sig)%bool
           then Some PPlugin
           else Dict.get k kwargs.
Proof.
  intros sig request kwargs k. unfold inject.
  destruct (String.eqb k "request") eqn:Er;
    [apply String.eqb_eq in Er; subst k
    |destruct (String.eqb k "plugin") eqn:Ep;
     [apply String.eqb_eq in Ep; subst k|]];
    destruct (Signature.declares "request" sig),
             (Signature.declares "plugin" sig);
    cbn [andb];
    repeat first [rewrite get_set_same
                 |rewrite get_set_other by (reflexivity || assumption)];
    reflexivity.
Qed.

(** ** The stream sink (C6) *)

(** C6 as stated fails: the write of ["alpha\nbeta"] does not end in a
    newline, so nothing is flushed; no notification is written and the
    buffer holds the whole text. *)
Lemma C6_write_without_newline :
  let r := Stream.write ("alpha" ++ Text.NL ++ "beta")
             (PluginStream_new "info") Plugin_new in
  stdout (snd r) = []
  /\ buff (snd (fst r)) = "alpha" ++ Text.NL ++ "beta"
  /\ stdout (snd r)
     <> [FNotification "log" [("level", Text "info");
                              ("message", Text "alpha")]]
  /\ buff (snd (fst r)) <> "beta".
Proof. vm_compute. repeat split; discriminate. Qed.

(** C6, amended.  On a fresh stream the write of ["alpha\nbeta"] writes
    no notification and keeps the whole text in the buffer; the write of
    ["\n"] that follows logs [alpha] and then [beta], at the level of the
    stream, and empties the buffer.  A [flush] in place of the second
    write logs [alpha] only and keeps [beta]. *)
Theorem C6_write_then_newline :
  forall lvl : string,
    let line (l : string) :=
      FNotification "log" [("level", Text lvl); ("message", Text l)] in
    let r1 := Stream.write ("alpha" ++ Text.NL ++ "beta")
                (PluginStream_new lvl) Plugin_new in
    let r2 := Stream.write Text.NL (snd (fst r1)) (snd r1) in
    let r2' := Stream.flush (snd (fst r1)) (snd r1) in
    (fst (fst r1) = Ok tt /\ stdout (snd r1) = []
     /\ buff (snd (fst r1)) = "alpha" ++ Text.NL ++ "beta")
    /\ (fst (fst r2) = Ok tt
        /\ stdout (snd r2) = [line "alpha"; line "beta"]
        /\ buff (snd (fst r2)) = "")
    /\ (fst (fst r2') = Ok tt
        /\ stdout (snd r2') = [line "alpha"]
        /\ buff (snd (fst r2')) = "beta").
Proof. intros lvl. vm_compute. repeat split; reflexivity. Qed.

(** ** Responses (C3, C8, C2, C10) *)

Section Respond.

Variable loads : string -> option json.


(** What [respond] does once [_dispatch] has raised an exception that
    [except Exception] catches. *)
Lemma respond_caught (fuel : nat) (payload : string)
  (d : list (string * json)) (method id : json) (e : exn)
  (self self' : Plugin) :
  loads payload = Some (JObj d) ->
  Dict.get "method" d = Some method ->
  Dict.get "id" d = Some id ->
  _dispatch fuel (JObj d) self = (Exc e, self') ->
  is_Exception e = true ->
  respond loads fuel payload self
  = (Ok tt, write_frame (FError method id)
              (write_frame (Examples.info (FormatExc e)) self')).
Proof.
  intros Hl Hm Hi Hd He.
  unfold respond, json_loads, try_except. rewrite Hl.
  unfold bind at 1. cbn [ret]. unfold bind at 1. unfold bind at 1.
  rewrite Hd, He. unfold getitem, log, notify. run_monad.
  rewrite Hm, Hi. reflexivity.
Qed.

End Respond.

(** [_dispatch] up to the call of the function it found. *)
Lemma dispatch_bound (fuel : nat) (d : list (string * json))
  (name : string) (params : json) (f : handler) (self : Plugin) :
  Dict.get "method" d = Some (JStr name) ->
  Dict.get "params" d = Some params ->
  Dict.get name (methods self) = Some f ->
  _dispatch fuel (JObj d) self
  = match Signature.bind_args (signature f) (positional params)
            (inject (signature f) (JObj d) (keywords params)) with
    | Return ba => call (nested _dispatch fuel) f ba self
    | Raise e => (Exc e, self)
    end.
Proof.
  intros Hm Hp Hf.
  destruct fuel; cbn [_dispatch]; unfold getitem, find_method; run_monad;
    rewrite Hm, Hp; run_monad; rewrite Hf;
    destruct (Signature.bind_args _ _ _); reflexivity.
Qed.





(** C8.  A request with an [id] whose method name is not in the table is
    answered, not fatal: [respond] returns normally, and what it has
    written to stdout is the log notification of the failure followed by
    the error response that carries the request's id; the table is
    untouched and the loop goes on with the next frame.  The exception
    logged is the [ValueError] of [_dispatch] (the [KeyError] for
    [params], read first, when the request has none). *)
Theorem C8_unknown_method_answered :
  forall (loads : string -> option json) (fuel : nat) (payload : string)
         (rest : list string) (d : list (string * json)) (name : string)
         (id : json) (self : Plugin),
    loads payload = Some (JObj d) ->
    Dict.get "method" d = Some (JStr name) ->
    Dict.get "id" d = Some id ->
    Dict.get name (methods self) = None ->
    let e := match Dict.get "params" d with
             | Some _ => ValueError_no_method (JStr name)
             | None => KeyError "params"
             end in
    let r := respond loads fuel payload self in
    fst r = Ok tt
    /\ stdout (snd r)
       = (stdout self
          ++ [FNotification "log"
                [("level", Text "info"); ("message", FormatExc e)];
              FError (JStr name) id])%list
    /\ methods (snd r) = methods self
    /\ respond_all loads fuel (payload :: rest) self
       = respond_all loads fuel rest (snd r).
Proof.
  intros loads fuel payload rest d name id self Hl Hm Hi Hf e r.
  assert (Hr : respond loads fuel payload self
               = (Ok tt, write_frame (FError (JStr name) id)
                           (write_frame (Examples.info (FormatExc e)) self))).
  { apply (respond_caught loads fuel payload d (JStr name) id e self self
             Hl Hm Hi).
    - subst e.
      destruct fuel; cbn [_dispatch]; unfold getitem, find_method; run_monad;
        rewrite Hm; run_monad;
        (destruct (Dict.get "params" d); run_monad; [rewrite Hf|];
         reflexivity).
    - subst e. destruct (Dict.get "params" d); reflexivity. }
  subst r. cbn [respond_all]. unfold bind. rewrite Hr. cbn [fst snd].
  repeat split. cbn [stdout write_frame]. rewrite <- app_assoc. reflexivity.
Qed.

Lemma C8_unknown_method_answered_witness :
  let r := respond MiniJson.loads 2 Examples.nope Plugin_new in
  fst r = Ok tt
  /\ stdout (snd r)
     = ([] ++ [FNotification "log"
                 [("level", Text "info");
                  ("message", FormatExc (ValueError_no_method (JStr "nope")))];
               FError (JStr "nope") (JNum 1)])%list
  /\ methods (snd r) = methods Plugin_new
  /\ respond_all MiniJson.loads 2 [Examples.nope; Examples.getmanifest_1]
       Plugin_new
     = respond_all MiniJson.loads 2 [Examples.getmanifest_1] (snd r).
Proof.
  apply (C8_unknown_method_answered MiniJson.loads 2 Examples.nope
           [Examples.getmanifest_1]
           [("method", JStr "nope"); ("params", JObj []); ("id", JNum 1)]
           "nope" (JNum 1) Plugin_new);
    vm_compute; reflexivity.
Defined.

(** C2 as stated fails: a complete frame that is not JSON is decoded
    outside the [try]; [JSONDecodeError] leaves [run], nothing is
    written, and the frame that follows is never answered. *)
Lemma C2_undecodable_frame_ends_loop :
  let input := "garbage" ++ Text.NLNL ++ Examples.getmanifest_1 ++ Text.NLNL in
  let r := run MiniJson.loads 2 (Text.lines input) Plugin_new in
  Text.split_nlnl input = ["garbage"; Examples.getmanifest_1; ""]
  /\ MiniJson.loads "garbage" = None
  /\ fst r = Exc (JSONDecodeError "garbage")
  /\ stdout (snd r) = [].
Proof. vm_compute. repeat split; reflexivity. Qed.

(** C2, amended.  A complete frame decodes to an object with a [method]
    and an [id], and its dispatch raises an exception derived from
    [Exception].  Then [respond] returns normally; what it has written
    to stdout after the dispatch is the log notification with the
    failure detail followed by the error response that names the method
    and carries the id; and the loop goes on with the next frame. *)
Theorem C2_dispatch_failure_isolated :
  forall (loads : string -> option json) (fuel : nat) (payload : string)
         (rest : list string) (d : list (string * json)) (method id : json)
         (e : exn) (self self' : Plugin),
    loads payload = Some (JObj d) ->
    Dict.get "method" d = Some method ->
    Dict.get "id" d = Some id ->
    _dispatch fuel (JObj d) self = (Exc e, self') ->
    is_Exception e = true ->
    let r := respond loads fuel payload self in
    fst r = Ok tt
    /\ stdout (snd r)
       = (stdout self'
          ++ [FNotification "log"
                [("level", Text "info"); ("message", FormatExc e)];
              FError method id])%list
    /\ methods (snd r) = methods self'
    /\ respond_all loads fuel (payload :: rest) self
       = respond_all loads fuel rest (snd r).
Proof.
  intros loads fuel payload rest d method id e self self'
    Hl Hm Hi Hd He r.
  assert (Hr : respond loads fuel payload self
               = (Ok tt, write_frame (FError method id)
                           (write_frame (Examples.info (FormatExc e)) self')))
    by exact (respond_caught loads fuel payload d method id e self self'
                Hl Hm Hi Hd He).
  subst r. cbn [respond_all]. unfold bind. rewrite Hr. cbn [fst snd].
  repeat split. cbn [stdout write_frame]. rewrite <- app_assoc. reflexivity.
Qed.

Lemma C2_dispatch_failure_isolated_witness :
  let payload := MiniJson.dq "{'method':'boom','params':[],'id':3}" in
  let r := respond MiniJson.loads 2 payload Examples.greeter in
  fst r = Ok tt
  /\ stdout (snd r)
     = (stdout (log_call "boom" [] Examples.greeter)
        ++ [FNotification "log"
              [("level", Text "info");
               ("message", FormatExc (HandlerError "RuntimeError"))];
            FError (JStr "boom") (JNum 3)])%list
  /\ methods (snd r) = methods (log_call "boom" [] Examples.greeter)
  /\ respond_all MiniJson.loads 2 [payload; Examples.nope] Examples.greeter
     = respond_all MiniJson.loads 2 [Examples.nope] (snd r).
Proof.
  cbv zeta.
  apply (C2_dispatch_failure_isolated MiniJson.loads 2
           (MiniJson.dq "{'method':'boom','params':[],'id':3}")
           [Examples.nope]
           [("method", JStr "boom"); ("params", JArr []); ("id", JNum 3)]
           (JStr "boom") (JNum 3) (HandlerError "RuntimeError")
           Examples.greeter (log_call "boom" [] Examples.greeter));
    vm_compute; reflexivity.
Defined.

(** C10.  A complete frame decodes to an object without an [id].  Then
    no response is written for it: [request['id']] raises [KeyError] in
    the [try] block, or [_dispatch] has raised before, and the [except]
    block reads [request['method']] and [request['id']] again, so that a
    [KeyError] leaves [respond], the loop of [_multi_dispatch] and with
    it the read loop; the frames that follow are not processed.  The
    exception is the handler's own only when [except Exception] does not
    catch it. *)
Theorem C10_request_without_id_ends_loop :
  forall (loads : string -> option json) (fuel : nat) (payload : string)
         (more : list string) (d : list (string * json)) (self : Plugin),
    loads payload = Some (JObj d) ->
    Dict.get "id" d = None ->
    more <> [] ->
    let dispatched := _dispatch (S (S fuel)) (JObj d) self in
    exists e,
      respond loads (S (S fuel)) payload self = (Exc e, snd dispatched)
      /\ _multi_dispatch loads (S (S fuel)) (payload :: more) self
         = (Exc e, snd dispatched)
      /\ (e = KeyError "id"
          \/ (e = KeyError "method" /\ Dict.get "method" d = None)
          \/ (is_Exception e = false /\ fst dispatched = Exc e)).
Proof.
  intros loads fuel payload more d self Hl Hi Hmore dispatched.
  assert (H : exists e,
             respond loads (S (S fuel)) payload self = (Exc e, snd dispatched)
             /\ (e = KeyError "id"
                 \/ (e = KeyError "method" /\ Dict.get "method" d = None)
                 \/ (is_Exception e = false /\ fst dispatched = Exc e))).
  { pose proof (dispatch_total fuel (JObj d) self) as Htotal.
    unfold respond, json_loads, try_except. rewrite Hl.
    unfold bind at 1. cbn [ret]. unfold bind at 1. unfold bind at 1.
    subst dispatched.
    destruct (_dispatch (S (S fuel)) (JObj d) self) as [[v|e|] s1];
      cbn [fst snd] in *; [| |congruence].
    - unfold getitem, log, notify. run_monad. rewrite Hi. cbn [is_Exception].
      destruct (Dict.get "method" d) as [m|]; run_monad.
      + rewrite ?Hi. eexists; split; [reflexivity|]. left. reflexivity.
      + eexists; split; [reflexivity|]. right. left. split; reflexivity.
    - destruct (is_Exception e) eqn:He.
      + unfold getitem, log, notify. run_monad.
        destruct (Dict.get "method" d) as [m|]; run_monad.
        * rewrite ?Hi. eexists; split; [reflexivity|]. left. reflexivity.
        * eexists; split; [reflexivity|]. right. left. split; reflexivity.
      + run_monad. eexists; split; [reflexivity|].
        right. right. split; [exact He|reflexivity]. }
  destruct H as (e & Hr & He). exists e. repeat split; try assumption.
  unfold _multi_dispatch. rewrite TextFacts.but_last_cons by exact Hmore.
  cbn [respond_all]. unfold bind. rewrite Hr. reflexivity.
Qed.

Lemma C10_request_without_id_ends_loop_witness :
  exists e,
    respond MiniJson.loads 2 Examples.no_id Plugin_new
    = (Exc e, snd (_dispatch 2
                     (JObj [("method", JStr "getmanifest");
                            ("params", JArr [])]) Plugin_new))
    /\ _multi_dispatch MiniJson.loads 2
         [Examples.no_id; Examples.getmanifest_1; ""] Plugin_new
       = (Exc e, snd (_dispatch 2
                        (JObj [("method", JStr "getmanifest");
                               ("params", JArr [])]) Plugin_new))
    /\ (e = KeyError "id"
        \/ (e = KeyError "method"
            /\ Dict.get "method"
                 [("method", JStr "getmanifest"); ("params", JArr [])]
               = None)
        \/ (is_Exception e = false
            /\ fst (_dispatch 2
                      (JObj [("method", JStr "getmanifest");
                             ("params", JArr [])]) Plugin_new) = Exc e)).
Proof.
  apply (C10_request_without_id_ends_loop MiniJson.loads 0 Examples.no_id
           [Examples.getmanifest_1; ""]
           [("method", JStr "getmanifest"); ("params", JArr [])] Plugin_new).
  - vm_compute. reflexivity.
  - reflexivity.
  - discriminate.
Defined.

(** ** The init handshake (C4) *)

(** [run] installs [_init] only over an [init] entry that exists: in a
    table without one, [init] is an unknown method. *)
Lemma init_unregistered_raises (fuel : nat) (d : list (string * json))
  (params : json) (self : Plugin) :
  Dict.get "method" d = Some (JStr "init") ->
  Dict.get "params" d = Some params ->
  Dict.get "init" (methods self) = None ->
  (stash_init ;;; _dispatch fuel (JObj d)) self
  = (Exc (ValueError_no_method (JStr "init")), self).
Proof.
  intros Hm Hp Hi. unfold stash_init. run_monad. rewrite Hi.
  destruct fuel; cbn [_dispatch]; unfold getitem, find_method; run_monad;
    rewrite Hm, Hp; run_monad; rewrite Hi; reflexivity.
Qed.


(** C4, first half, on the code: a plugin without a user [init] handler
    answers the [init] request with an error response, because
    [_dispatch] raises [ValueError]; it does not return null. *)
Theorem C4_init_without_handler_is_error :
  let request :=
    JObj [("method", JStr "init");
          ("params", JObj [("options", JObj []); ("configuration", JObj [])]);
          ("id", JNum 7)] in
  let r := run MiniJson.loads 2
             (Text.lines (Examples.init_request ++ Text.NLNL)) Plugin_new in
  MiniJson.loads Examples.init_request = Some request
  /\ fst ((stash_init ;;; _dispatch 2 request) Plugin_new)
     = Exc (ValueError_no_method (JStr "init"))
  /\ fst r = Ok ""
  /\ stdout (snd r)
     = [Examples.info (FormatExc (ValueError_no_method (JStr "init")));
        FError (JStr "init") (JNum 7)].
Proof. vm_compute. repeat split; reflexivity. Qed.

(** The handshake with a user handler registered: the first [init]
    reaches it once through [_init], which restores it in the table; the
    second [init] reaches it directly. *)
Example init_with_handler_twice :
  let input := Examples.init_request ++ Text.NLNL
               ++ Examples.init_request ++ Text.NLNL in
  let args := [("options", PJson (JObj []));
               ("configuration", PJson (JObj []))] in
  let once := run MiniJson.loads 2
                (Text.lines (Examples.init_request ++ Text.NLNL))
                Examples.with_init in
  let twice := run MiniJson.loads 2 (Text.lines input) Examples.with_init in
  (stdout (snd once) = [FResult (JStr "ready") (JNum 7)]
   /\ calls (snd once) = [("on_init", args)]
   /\ init (snd once) = None
   /\ map fst (methods (snd once)) = ["getmanifest"; "init"])
  /\ (stdout (snd twice) = [FResult (JStr "ready") (JNum 7);
                            FResult (JStr "ready") (JNum 7)]
      /\ calls (snd twice) = [("on_init", args); ("on_init", args)]
      /\ init (snd twice) = None).
Proof. vm_compute. repeat split; reflexivity. Qed.

(** ** More on the stream sink *)

(** A write that does not end in a newline only grows the buffer. *)
Lemma write_buffers (payload : string) (c : ascii)
  (self : PluginStream) (plugin : Plugin) :
  Text.last_char payload = Some c ->
  Ascii.eqb c Text.nl = false ->
  Stream.write payload self plugin
  = (Ok tt, {| level := level self; buff := buff self ++ payload |}, plugin).
Proof. intros Hc Hn. unfold Stream.write. rewrite Hc, Hn. reflexivity. Qed.

(** The empty write raises [IndexError] at [payload[-1]]. *)
Lemma write_empty (self : PluginStream) (plugin : Plugin) :
  fst (fst (Stream.write "" self plugin)) = Exc IndexError.
Proof. reflexivity. Qed.

Lemma log_lines_frames (lines : list string) (lvl : string) :
  forall plugin,
    Stream.log_lines lines lvl plugin
    = (Ok tt,
       fold_left
         (fun p l =>
            write_frame
              (FNotification "log" [("level", Text lvl); ("message", Text l)])
              p)
         lines plugin).
Proof.
  induction lines as [|l lines IH]; intros plugin; [reflexivity|].
  cbn [Stream.log_lines fold_left]. unfold log, notify. run_monad.
  apply IH.
Qed.

(** [flush] logs every complete line of the buffer, in order, and keeps
    what follows the last newline. *)
Lemma flush_complete_lines (self : PluginStream) (plugin : Plugin) :
  Nat.ltb (length (Text.split_nl (buff self))) 2 = false ->
  Stream.flush self plugin
  = (Ok tt,
     {| level := level self;
        buff := Text.last_seg (Text.split_nl (buff self)) |},
     fold_left
       (fun p l =>
          write_frame
            (FNotification "log"
               [("level", Text (level self)); ("message", Text l)]) p)
       (Text.but_last (Text.split_nl (buff self))) plugin).
Proof.
  intros H. unfold Stream.flush. rewrite H, log_lines_frames. reflexivity.
Qed.


(** * Further properties *)

(** ** Registration *)

Lemma set_fresh_names {V} (k : string) (v : V) (d : list (string * V)) :
  Dict.get k d = None ->
  map fst (Dict.set k v d) = (map fst d ++ [k])%list.
Proof.
  induction d as [|[k' v'] d IH]; cbn; [reflexivity|].
  destruct (String.eqb k k'); [discriminate|].
  intros H. cbn. rewrite IH by exact H. reflexivity.
Qed.

(** X1.  Registering under a name that is free succeeds: the name is then
    bound to the function, it comes last in the order of the table, every
    other name is bound as before, and nothing else of the plugin
    changes. *)
Theorem add_method_fresh_lookup :
  forall (name : string) (f : handler) (self : Plugin),
    Dict.get name (methods self) = None ->
    let r := add_method name f self in
    fst r = Ok tt
    /\ Dict.get name (methods (snd r)) = Some f
    /\ (forall k, k <> name ->
          Dict.get k (methods (snd r)) = Dict.get k (methods self))
    /\ map fst (methods (snd r)) = (map fst (methods self) ++ [name])%list
    /\ init (snd r) = init self /\ stdout (snd r) = stdout self.
Proof.
  intros name f self H r. subst r. rewrite (add_method_fresh name f self H).
  cbn [fst snd set_methods methods init stdout]. repeat split.
  - apply get_set_same.
  - intros k Hk. apply get_set_other. apply String.eqb_neq. exact Hk.
  - apply set_fresh_names. exact H.
Qed.

Lemma add_method_fresh_lookup_witness :
  let r := add_method "hello" (User Examples.hello) Plugin_new in
  fst r = Ok tt
  /\ Dict.get "hello" (methods (snd r)) = Some (User Examples.hello)
  /\ (forall k, k <> "hello" ->
        Dict.get k (methods (snd r)) = Dict.get k (methods Plugin_new))
  /\ map fst (methods (snd r))
     = (map fst (methods Plugin_new) ++ ["hello"])%list
  /\ init (snd r) = init Plugin_new /\ stdout (snd r) = stdout Plugin_new.
Proof.
  apply (add_method_fresh_lookup "hello" (User Examples.hello) Plugin_new).
  reflexivity.
Defined.



(** X3.  A registration never touches a name that is bound: whatever
    the name and the function given, and whether the call succeeds or
    raises, every name bound before is bound to the same handler after;
    in particular the built-in [getmanifest] of a fresh plugin cannot
    be replaced by registering. *)
Theorem add_method_keeps_bindings :
  forall (name k : string) (f g : handler) (self : Plugin),
    Dict.get k (methods self) = Some g ->
    Dict.get k (methods (snd (add_method name f self))) = Some g.
Proof.
  intros name k f g self H. unfold add_method, Dict.mem. run_monad.
  destruct (Dict.get name (methods self)) eqn:E; cbn; [exact H|].
  rewrite get_set_other; [exact H|].
  apply String.eqb_neq. intros <-. congruence.
Qed.

Lemma add_method_keeps_bindings_witness :
  Dict.get "getmanifest"
    (methods (snd (add_method "getmanifest" (User Examples.hello)
                     Plugin_new)))
  = Some Getmanifest
  /\ Dict.get "getmanifest"
       (methods (snd (add_method "hello" (User Examples.hello) Plugin_new)))
     = Some Getmanifest.
Proof.
  split.
  - apply (add_method_keeps_bindings "getmanifest" "getmanifest"
             (User Examples.hello) Getmanifest Plugin_new).
    reflexivity.
  - apply (add_method_keeps_bindings "hello" "getmanifest"
             (User Examples.hello) Getmanifest Plugin_new).
    reflexivity.
Defined.

(** ** Binding the parameters *)

Lemma get_remove_other {V} (k k' : string) (d : list (string * V)) :
  String.eqb k k' = false ->
  Dict.get k (Dict.remove k' d) = Dict.get k d.
Proof.
  intros Hk. induction d as [|[k2 v2] d IH]; cbn; [reflexivity|].
  destruct (String.eqb k' k2) eqn:E; cbn.
  - apply String.eqb_eq in E. subst k2. rewrite Hk. reflexivity.
  - rewrite IH. reflexivity.
Qed.

Lemma bind_keywords_names (sig : list param) :
  forall kwargs ba,
    Signature.bind_keywords sig kwargs = Return ba ->
    map fst ba = map pname sig.
Proof.
  induction sig as [|p sig IH]; intros kwargs ba; cbn.
  - destruct kwargs as [|[k v] kwargs]; [|discriminate].
    intros [= <-]. reflexivity.
  - destruct (match Dict.get (pname p) kwargs with
              | Some v => Some v
              | None => pdefault p
              end) as [v|]; [|discriminate].
    destruct (Signature.bind_keywords sig _) as [rest|] eqn:E; [|discriminate].
    intros [= <-]. cbn. f_equal. eapply IH, E.
Qed.

Lemma bind_args_names (args : list pyval) :
  forall sig kwargs ba,
    Signature.bind_args sig args kwargs = Return ba ->
    map fst ba = map pname sig.
Proof.
  induction args as [|a args IH]; intros sig kwargs ba; cbn.
  - apply bind_keywords_names.
  - destruct sig as [|p sig]; [discriminate|].
    destruct (Dict.mem (pname p) kwargs); [discriminate|].
    destruct (Signature.bind_args sig args kwargs) as [rest|] eqn:E;
      [|discriminate].
    intros [= <-]. cbn. f_equal. eapply IH, E.
Qed.

Lemma bind_keywords_get (sig : list param) :
  forall kwargs ba k v,
    Signature.bind_keywords sig kwargs = Return ba ->
    Signature.declares k sig = true ->
    Dict.get k kwargs = Some v ->
    Dict.get k ba = Some v.
Proof.
  induction sig as [|p sig IH]; intros kwargs ba k v; cbn; [discriminate|].
  intros Hb Hd Hk.
  destruct (String.eqb k (pname p)) eqn:E.
  - apply String.eqb_eq in E. subst k. rewrite Hk in Hb.
    destruct (Signature.bind_keywords sig _) as [rest|]; [|discriminate].
    injection Hb as <-. cbn. rewrite String.eqb_refl. reflexivity.
  - cbn in Hd.
    destruct (match Dict.get (pname p) kwargs with
              | Some v => Some v
              | None => pdefault p
              end) as [w|]; [|discriminate].
    destruct (Signature.bind_keywords sig _) as [rest|] eqn:Er;
      [|discriminate].
    injection Hb as <-. cbn. rewrite E.
    apply (IH _ _ _ _ Er Hd). rewrite get_remove_other by exact E. exact Hk.
Qed.

Lemma bind_args_get (args : list pyval) :
  forall sig kwargs ba k v,
    Signature.bind_args sig args kwargs = Return ba ->
    Signature.declares k sig = true ->
    Dict.get k kwargs = Some v ->
    Dict.get k ba = Some v.
Proof.
  induction args as [|a args IH]; intros sig kwargs ba k v; cbn.
  - apply bind_keywords_get.
  - destruct sig as [|p sig]; [discriminate|].
    unfold Dict.mem. destruct (Dict.get (pname p) kwargs) eqn:Ep;
      [discriminate|].
    destruct (Signature.bind_args sig args kwargs) as [rest|] eqn:Er;
      [|discriminate].
    intros [= <-] Hd Hk. cbn in Hd |- *.
    destruct (String.eqb k (pname p)) eqn:E.
    + apply String.eqb_eq in E. subst k. congruence.
    + apply (IH _ _ _ _ _ Er Hd Hk).
Qed.

Lemma inject_plugin (sig : list param) (request : json)
  (kwargs : list (string * pyval)) :
  Signature.declares "plugin" sig = true ->
  Dict.get "plugin" (inject sig request kwargs) = Some PPlugin.
Proof.
  intros H. unfold inject. rewrite H.
  destruct (Signature.declares "request" sig).
  - rewrite get_set_other by reflexivity. apply get_set_same.
  - apply get_set_same.
Qed.

Lemma inject_request (sig : list param) (request : json)
  (kwargs : list (string * pyval)) :
  Signature.declares "request" sig = true ->
  Dict.get "request" (inject sig request kwargs) = Some (PJson request).
Proof. intros H. unfold inject. rewrite H. apply get_set_same. Qed.

(** X4.  When the parameters of a request bind to a signature, the
    function is given one value for each declared parameter, under the
    declared names and in the declared order; the value for a declared
    [plugin] is the plugin object and the value for a declared [request]
    is the raw request. *)
Theorem bound_arguments_cover_signature :
  forall (sig : list param) (request params : json)
         (ba : list (string * pyval)),
    Signature.bind_args sig (positional params)
      (inject sig request (keywords params)) = Return ba ->
    map fst ba = map pname sig
    /\ (Signature.declares "plugin" sig = true ->
        Dict.get "plugin" ba = Some PPlugin)
    /\ (Signature.declares "request" sig = true ->
        Dict.get "request" ba = Some (PJson request)).
Proof.
  intros sig request params ba Hb. repeat split.
  - eapply bind_args_names, Hb.
  - intros Hd. eapply bind_args_get; [exact Hb|exact Hd|].
    apply inject_plugin. exact Hd.
  - intros Hd. eapply bind_args_get; [exact Hb|exact Hd|].
    apply inject_request. exact Hd.
Qed.

Lemma bound_arguments_cover_signature_witness :
  let request :=
    JObj [("method", JStr "init");
          ("params", JArr [JObj []; JObj []]); ("id", JNum 1)] in
  let ba := [("options", PJson (JObj [])); ("configuration", PJson (JObj []));
             ("request", PJson request)] in
  map fst ba = map pname (signature Init)
  /\ (Signature.declares "plugin" (signature Init) = true ->
      Dict.get "plugin" ba = Some PPlugin)
  /\ (Signature.declares "request" (signature Init) = true ->
      Dict.get "request" ba = Some (PJson request)).
Proof.
  apply (bound_arguments_cover_signature (signature Init)
           (JObj [("method", JStr "init");
                  ("params", JArr [JObj []; JObj []]); ("id", JNum 1)])
           (JArr [JObj []; JObj []])).
  reflexivity.
Defined.





Lemma bind_keywords_default (sig : list param) :
  forall kwargs p ba,
    NoDup (map pname sig) ->
    In p sig ->
    Dict.get (pname p) kwargs = None ->
    Signature.bind_keywords sig kwargs = Return ba ->
    exists v, pdefault p = Some v /\ Dict.get (pname p) ba = Some v.
Proof.
  induction sig as [|q sig IH]; intros kwargs p ba Hnd Hin Hk; cbn;
    [destruct Hin|].
  inversion Hnd as [|? ? Hq Hnd']; subst.
  destruct Hin as [->|Hin].
  - rewrite Hk. destruct (pdefault p) as [v|]; [|discriminate].
    destruct (Signature.bind_keywords sig _) as [rest|]; [|discriminate].
    intros [= <-]. exists v. cbn. rewrite String.eqb_refl. auto.
  - assert (E : String.eqb (pname p) (pname q) = false).
    { apply String.eqb_neq. intros E. apply Hq. rewrite <- E.
      apply in_map. exact Hin. }
    destruct (match Dict.get (pname q) kwargs with
              | Some v => Some v
              | None => pdefault q
              end) as [w|]; [|discriminate].
    destruct (Signature.bind_keywords sig _) as [rest|] eqn:Er;
      [|discriminate].
    intros [= <-]. cbn. rewrite E.
    apply (IH _ _ _ Hnd' Hin) in Er; [exact Er|].
    rewrite get_remove_other by exact E. exact Hk.
Qed.

Lemma bind_args_default (args : list pyval) :
  forall sig kwargs i p ba,
    NoDup (map pname sig) ->
    nth_error sig i = Some p ->
    length args <= i ->
    Dict.get (pname p) kwargs = None ->
    Signature.bind_args sig args kwargs = Return ba ->
    exists v, pdefault p = Some v /\ Dict.get (pname p) ba = Some v.
Proof.
  induction args as [|a args IH]; intros sig kwargs i p ba Hnd Hn Hi Hk;
    cbn in Hi |- *.
  - apply bind_keywords_default; try assumption.
    eapply nth_error_In, Hn.
  - destruct sig as [|q sig]; [discriminate|].
    destruct i as [|i]; [lia|]. cbn in Hn.
    inversion Hnd as [|? ? Hq Hnd']; subst.
    destruct (Dict.mem (pname q) kwargs); [discriminate|].
    destruct (Signature.bind_args sig args kwargs) as [rest|] eqn:Er;
      [|discriminate].
    intros [= <-]. cbn.
    assert (E : String.eqb (pname p) (pname q) = false).
    { apply String.eqb_neq. intros E. apply Hq. rewrite <- E.
      apply in_map. eapply nth_error_In, Hn. }
    rewrite E. apply (IH sig kwargs i p rest Hnd' Hn ltac:(lia) Hk Er).
Qed.

Lemma inject_other (sig : list param) (request : json)
  (kwargs : list (string * pyval)) (k : string) :
  k <> "plugin" -> k <> "request" ->
  Dict.get k (inject sig request kwargs) = Dict.get k kwargs.
Proof.
  intros Hp Hr. apply String.eqb_neq in Hp, Hr. unfold inject.
  destruct (Signature.declares "request" sig),
           (Signature.declares "plugin" sig);
    rewrite ?(get_set_other _ _ _ _ Hr), ?(get_set_other _ _ _ _ Hp);
    reflexivity.
Qed.

(** X6.  A declared parameter that the request supplies neither by
    position nor by name takes its default: if the binding succeeds, the
    parameter has a default and the function is given that default; a
    parameter without default makes the binding fail. *)
Theorem omitted_parameter_takes_default :
  forall (sig : list param) (request params : json) (i : nat) (p : param)
         (ba : list (string * pyval)),
    NoDup (map pname sig) ->
    nth_error sig i = Some p ->
    length (positional params) <= i ->
    Dict.get (pname p) (keywords params) = None ->
    pname p <> "plugin" -> pname p <> "request" ->
    Signature.bind_args sig (positional params)
      (inject sig request (keywords params)) = Return ba ->
    exists v, pdefault p = Some v /\ Dict.get (pname p) ba = Some v.
Proof.
  intros sig request params i p ba Hnd Hn Hi Hk Hp Hr Hb.
  refine (bind_args_default _ _ _ i p ba Hnd Hn Hi _ Hb).
  rewrite inject_other by assumption. exact Hk.
Qed.

Lemma omitted_parameter_takes_default_witness :
  exists v,
    pdefault {| pname := "name"; pdefault := Some (PJson (JStr "world")) |}
    = Some v
    /\ Dict.get "name" [("name", PJson (JStr "world"))] = Some v.
Proof.
  apply (omitted_parameter_takes_default (fparams Examples.hello)
           (JObj [("method", JStr "hello"); ("params", JArr [])])
           (JArr []) 0
           {| pname := "name"; pdefault := Some (PJson (JStr "world")) |}
           [("name", PJson (JStr "world"))]);
    try reflexivity; try discriminate.
  repeat constructor. intros [].
Defined.

(** ** The manifest call *)

Lemma manifest_methods_stdout (items : list (string * handler)) :
  forall self,
    stdout (snd (manifest_methods items self))
    = (stdout self
       ++ map undocumented_warning
            (map fst
               (filter (fun nf => (negb (is_builtin (fst nf))
                                   && negb (has_doc (snd nf)))%bool)
                  items)))%list.
Proof.
  induction items as [|[name f] items IH]; intros self.
  - cbn. rewrite app_nil_r. reflexivity.
  - cbn [manifest_methods filter fst snd].
    destruct (is_builtin name); cbn [negb andb]; [apply IH|].
    unfold has_doc.
    destruct (getdoc f) as [[|c d]|]; cbn [negb map]; unfold log, notify;
      run_monad;
      match goal with
      | |- context [manifest_methods items ?s] =>
          pose proof (IH s) as Hs;
          destruct (manifest_methods_spec items s) as (s' & E & _);
          rewrite E in *; cbn [snd] in *
      end;
      rewrite Hs; cbn [stdout write_frame]; rewrite <- ?app_assoc;
      reflexivity.
Qed.

(** X7.  The manifest call writes one warning for every listed method
    without a docstring, in the order of the table, and writes nothing
    else: no warning for a documented method, none for [getmanifest] or
    [init]. *)
Theorem getmanifest_warnings :
  forall self : Plugin,
    stdout (snd (_getmanifest self))
    = (stdout self
       ++ map undocumented_warning
            (map fst
               (filter (fun nf => (negb (is_builtin (fst nf))
                                   && negb (has_doc (snd nf)))%bool)
                  (methods self))))%list.
Proof.
  intros self. unfold _getmanifest. run_monad.
  pose proof (manifest_methods_stdout (methods self) self) as Hs.
  destruct (manifest_methods_spec (methods self) self) as (s' & E & _).
  rewrite E in *. exact Hs.
Qed.

(** X8.  The manifest call takes no parameters.  With an empty list, an
    empty object, or anything that is neither a list nor an object as
    [params], the request is answered by [_getmanifest]; a list or an
    object that is not empty raises [TypeError] and leaves the plugin as
    it was. *)
Theorem getmanifest_takes_no_parameters :
  forall (fuel : nat) (d : list (string * json)) (params : json)
         (self : Plugin),
    Dict.get "method" d = Some (JStr "getmanifest") ->
    Dict.get "params" d = Some params ->
    Dict.get "getmanifest" (methods self) = Some Getmanifest ->
    _dispatch fuel (JObj d) self
    = match params with
      | JArr (_ :: _) =>
          (Exc (TypeError "too many positional arguments"), self)
      | JObj ((k, _) :: _) =>
          (Exc (TypeError ("got an unexpected keyword argument '"
                           ++ k ++ "'")), self)
      | _ => _getmanifest self
      end.
Proof.
  intros fuel d params self Hm Hp Hf.
  rewrite (dispatch_bound fuel d "getmanifest" params Getmanifest self
             Hm Hp Hf).
  destruct params as [| | | |[|x items]|[|[k v] fields]]; reflexivity.
Qed.

Lemma getmanifest_takes_no_parameters_witness :
  _dispatch 2
    (JObj [("method", JStr "getmanifest"); ("params", JArr [JNum 1]);
           ("id", JNum 1)]) Plugin_new
  = (Exc (TypeError "too many positional arguments"), Plugin_new).
Proof.
  apply (getmanifest_takes_no_parameters 2
           [("method", JStr "getmanifest"); ("params", JArr [JNum 1]);
            ("id", JNum 1)] (JArr [JNum 1]) Plugin_new);
    reflexivity.
Defined.

(** ** The handshake *)





(** ** Lines of the stream sink *)

Module LineFacts.
Import Text.

Lemma split_nl_nonempty (s : string) : split_nl s <> [].
Proof.
  destruct s as [|c s]; cbn; [discriminate|].
  destruct (Ascii.eqb c nl); [discriminate|].
  destruct (split_nl s); discriminate.
Qed.

Lemma terminated_cons_app (l : string) (ls : list string) (z : string) :
  terminated (l :: ls) ++ z = l ++ String nl (terminated ls ++ z).
Proof.
  unfold terminated. cbn [fold_right].
  rewrite TextFacts.append_assoc. reflexivity.
Qed.

(** The lines with their newlines, then the last fragment, give the text
    back. *)
Lemma split_nl_unsplit (s : string) :
  terminated (but_last (split_nl s)) ++ last_seg (split_nl s) = s.
Proof.
  induction s as [|c s IH]; [reflexivity|].
  cbn [split_nl]. pose proof (split_nl_nonempty s) as Hne.
  destruct (Ascii.eqb c nl) eqn:E.
  - apply Ascii.eqb_eq in E. subst c.
    rewrite TextFacts.but_last_cons, TextFacts.last_seg_cons by exact Hne.
    rewrite terminated_cons_app, IH. reflexivity.
  - destruct (split_nl s) as [|h [|h' t]]; [congruence| |].
    + cbn in IH |- *. rewrite IH. reflexivity.
    + cbn [cons_head].
      rewrite (TextFacts.but_last_cons (String c h)) by discriminate.
      rewrite (TextFacts.last_seg_cons (String c h)) by discriminate.
      rewrite (TextFacts.but_last_cons h) in IH by discriminate.
      rewrite (TextFacts.last_seg_cons h) in IH by discriminate.
      rewrite terminated_cons_app in IH |- *.
      cbn [String.append]. rewrite IH. reflexivity.
Qed.

(** No segment holds a newline. *)
Lemma split_nl_segments (s x : string) :
  In x (split_nl s) -> split_nl x = [x].
Proof.
  revert x. induction s as [|c s IH]; intros x; cbn [split_nl].
  - intros [<-|[]]. reflexivity.
  - destruct (Ascii.eqb c nl) eqn:E.
    + intros [<-|Hin]; [reflexivity|auto].
    + pose proof (split_nl_nonempty s) as Hne.
      destruct (split_nl s) as [|h t]; [congruence|]. cbn [cons_head].
      intros [<-|Hin]; [|apply IH; right; exact Hin].
      cbn [split_nl]. rewrite E, (IH h) by (left; reflexivity). reflexivity.
Qed.

Lemma last_char_app (a b : string) :
  b <> "" -> last_char (a ++ b) = last_char b.
Proof.
  intros Hb. induction a as [|c a IH]; [reflexivity|].
  cbn [String.append last_char]. rewrite IH.
  destruct (a ++ b) eqn:E; [|reflexivity].
  destruct a; [cbn in E; congruence|discriminate].
Qed.

(** A text that ends in a newline has at least two segments, the last
    one empty. *)
Lemma split_nl_ends (s : string) :
  last_char s = Some nl ->
  last_seg (split_nl s) = "" /\ Nat.ltb (length (split_nl s)) 2 = false.
Proof.
  induction s as [|c s IH]; [discriminate|].
  destruct s as [|d s].
  - cbn. intros [= ->]. cbn. split; reflexivity.
  - intros H. change (last_char (String d s) = Some nl) in H.
    destruct (IH H) as [Hl Hn].
    pose proof (split_nl_nonempty (String d s)) as Hne.
    change (split_nl (String c (String d s)))
      with (if Ascii.eqb c nl then "" :: split_nl (String d s)
            else cons_head c (split_nl (String d s))).
    destruct (split_nl (String d s)) as [|h [|h' t]];
      [congruence|discriminate|].
    destruct (Ascii.eqb c nl); cbn [cons_head].
    + rewrite TextFacts.last_seg_cons by discriminate.
      split; [exact Hl|reflexivity].
    + split; [|reflexivity].
      rewrite TextFacts.last_seg_cons by discriminate.
      rewrite TextFacts.last_seg_cons in Hl by discriminate. exact Hl.
Qed.

(** A line and its newline split into the line and an empty rest. *)
Lemma split_nl_line (l : string) :
  split_nl l = [l] -> split_nl (l ++ NL) = [l; ""].
Proof.
  induction l as [|c l IH]; [reflexivity|].
  cbn [split_nl String.append]. destruct (Ascii.eqb c nl).
  - intros H. injection H as H _. discriminate.
  - pose proof (split_nl_nonempty l) as Hne.
    destruct (split_nl l) as [|h [|h' t]] eqn:E; try congruence;
      try discriminate.
    cbn. intros [= ->]. rewrite IH by reflexivity. reflexivity.
Qed.

End LineFacts.

Lemma fold_write_stdout (lvl : string) (lines : list string) :
  forall plugin,
    stdout (fold_left
              (fun p l =>
                 write_frame
                   (FNotification "log"
                      [("level", Text lvl); ("message", Text l)]) p)
              lines plugin)
    = (stdout plugin ++ map (log_line lvl) lines)%list.
Proof.
  induction lines as [|l lines IH]; intros plugin; cbn [fold_left map].
  - rewrite app_nil_r. reflexivity.
  - rewrite IH. cbn [stdout write_frame]. rewrite <- app_assoc. reflexivity.
Qed.

(** ** The stream sink as a whole *)

Lemma last_char_some (s : string) : s <> "" -> exists c, Text.last_char s = Some c.
Proof.
  induction s as [|c s IH]; [congruence|]. intros _.
  destruct s as [|d s]; [exists c; reflexivity|].
  destruct IH as [x Hx]; [discriminate|]. exists x. exact Hx.
Qed.

(** X10.  A write of a text that is not empty loses nothing and invents
    nothing: it succeeds, and the lines it logs, each a text without
    newline logged at the level of the stream, taken with their newlines
    and followed by the new buffer, are the old buffer followed by the
    text written. *)
Theorem write_conserves_text :
  forall (payload : string) (self : PluginStream) (plugin : Plugin),
    payload <> "" ->
    let r := Stream.write payload self plugin in
    fst (fst r) = Ok tt
    /\ level (snd (fst r)) = level self
    /\ exists lines,
         stdout (snd r)
         = (stdout plugin ++ map (log_line (level self)) lines)%list
         /\ terminated lines ++ buff (snd (fst r)) = buff self ++ payload
         /\ forall l, In l lines -> Text.split_nl l = [l].
Proof.
  intros payload self plugin Hne r. subst r.
  destruct (last_char_some payload Hne) as [c Hc].
  unfold Stream.write. rewrite Hc.
  destruct (Ascii.eqb c Text.nl).
  - set (self1 := {| level := level self; buff := buff self ++ payload |}).
    destruct (Nat.ltb (length (Text.split_nl (buff self1))) 2) eqn:E.
    + unfold Stream.flush. rewrite E. cbn. repeat split.
      exists []. cbn. rewrite app_nil_r. repeat split. intros l [].
    + rewrite (flush_complete_lines self1 plugin E). cbn [fst snd level buff].
      repeat split.
      exists (Text.but_last (Text.split_nl (buff self1))). repeat split.
      * apply fold_write_stdout.
      * apply LineFacts.split_nl_unsplit.
      * intros l Hl. apply (LineFacts.split_nl_segments (buff self1)).
        unfold Text.but_last in Hl.
        destruct (Text.split_nl (buff self1)) as [|h t] eqn:Es;
          [destruct Hl|].
        rewrite (app_removelast_last "" (l := h :: t)) by discriminate.
        apply in_or_app. left. exact Hl.
  - cbn. repeat split. exists []. cbn. rewrite app_nil_r.
    repeat split. intros l [].
Qed.

Lemma write_conserves_text_witness :
  let self := {| level := "warn"; buff := "al" |} in
  let r := Stream.write ("pha" ++ Text.NL ++ "beta" ++ Text.NL ++ "ga")
             self Plugin_new in
  fst (fst r) = Ok tt
  /\ level (snd (fst r)) = level self
  /\ exists lines,
       stdout (snd r)
       = (stdout Plugin_new ++ map (log_line (level self)) lines)%list
       /\ terminated lines ++ buff (snd (fst r))
          = buff self ++ ("pha" ++ Text.NL ++ "beta" ++ Text.NL ++ "ga")
       /\ forall l, In l lines -> Text.split_nl l = [l].
Proof.
  apply (write_conserves_text ("pha" ++ Text.NL ++ "beta" ++ Text.NL ++ "ga")
           {| level := "warn"; buff := "al" |} Plugin_new).
  discriminate.
Defined.

(** X11.  A write of a text that ends in a newline leaves the buffer
    empty: everything written so far has been logged. *)
Theorem write_newline_empties_buffer :
  forall (payload : string) (self : PluginStream) (plugin : Plugin),
    Text.last_char payload = Some Text.nl ->
    let r := Stream.write payload self plugin in
    fst (fst r) = Ok tt /\ buff (snd (fst r)) = "".
Proof.
  intros payload self plugin Hc r. subst r.
  unfold Stream.write. rewrite Hc.
  change (Ascii.eqb Text.nl Text.nl) with true. cbv iota.
  set (self1 := {| level := level self; buff := buff self ++ payload |}).
  assert (Hl : Text.last_char (buff self1) = Some Text.nl).
  { cbn [buff self1]. rewrite LineFacts.last_char_app; [exact Hc|].
    intros ->. discriminate. }
  destruct (LineFacts.split_nl_ends _ Hl) as [Hlast Hn].
  rewrite (flush_complete_lines self1 plugin Hn). cbn [fst snd buff].
  split; [reflexivity|exact Hlast].
Qed.

Lemma write_newline_empties_buffer_witness :
  let r := Stream.write ("beta" ++ Text.NL)
             {| level := "info"; buff := "alpha" ++ Text.NL |} Plugin_new in
  fst (fst r) = Ok tt /\ buff (snd (fst r)) = "".
Proof.
  apply (write_newline_empties_buffer ("beta" ++ Text.NL)
           {| level := "info"; buff := "alpha" ++ Text.NL |} Plugin_new).
  reflexivity.
Defined.

(** X12.  [flush] never fails, leaves no newline in the buffer, and is
    idempotent: a second flush changes neither the stream nor the
    plugin. *)
Theorem flush_idempotent :
  forall (self : PluginStream) (plugin : Plugin),
    let r := Stream.flush self plugin in
    fst (fst r) = Ok tt
    /\ Text.split_nl (buff (snd (fst r))) = [buff (snd (fst r))]
    /\ Stream.flush (snd (fst r)) (snd r) = r.
Proof.
  intros self plugin r. subst r.
  assert (Hnoop : forall s p, Text.split_nl (buff s) = [buff s] ->
                              Stream.flush s p = (Ok tt, s, p)).
  { intros s p H. unfold Stream.flush. rewrite H. reflexivity. }
  destruct (Nat.ltb (length (Text.split_nl (buff self))) 2) eqn:E.
  - assert (H : Text.split_nl (buff self) = [buff self]).
    { pose proof (LineFacts.split_nl_unsplit (buff self)) as Hu.
      pose proof (LineFacts.split_nl_nonempty (buff self)) as Hne.
      destruct (Text.split_nl (buff self)) as [|h [|h' t]];
        [congruence| |discriminate].
      cbn in Hu. congruence. }
    rewrite (Hnoop self plugin H). cbn [fst snd].
    repeat split; [exact H|apply Hnoop; exact H].
  - rewrite (flush_complete_lines self plugin E). cbn [fst snd buff].
    assert (H : Text.split_nl (Text.last_seg (Text.split_nl (buff self)))
                = [Text.last_seg (Text.split_nl (buff self))]).
    { apply (LineFacts.split_nl_segments (buff self)).
      apply TextFacts.last_seg_in, LineFacts.split_nl_nonempty. }
    repeat split; [exact H|]. apply Hnoop. exact H.
Qed.

(** X13.  A write of the empty text raises [IndexError] at [payload[-1]];
    the buffer, the level and the plugin are as before. *)
Theorem write_empty_raises :
  forall (self : PluginStream) (plugin : Plugin),
    let r := Stream.write "" self plugin in
    fst (fst r) = Exc IndexError
    /\ buff (snd (fst r)) = buff self
    /\ level (snd (fst r)) = level self
    /\ snd r = plugin.
Proof.
  intros self plugin. cbn. repeat split. apply TextFacts.append_nil_r.
Qed.

Lemma fresh_sink_line (lvl line : string) (plugin : Plugin) :
  Text.split_nl line = [line] ->
  Stream.write (line ++ Text.NL) (PluginStream_new lvl) plugin
  = (Ok tt, PluginStream_new lvl, write_frame (log_line lvl line) plugin).
Proof.
  intros Hl. unfold Stream.write.
  rewrite LineFacts.last_char_app by discriminate.
  change (Text.last_char Text.NL) with (Some Text.nl).
  change (Ascii.eqb Text.nl Text.nl) with true. cbv iota.
  unfold Stream.flush. cbn [buff PluginStream_new String.append level].
  rewrite (LineFacts.split_nl_line line Hl). reflexivity.
Qed.

(** X14.  After [monkey_patch], a complete line written to [sys.stdout],
    if it was patched, adds exactly one log notification at level
    [info] to the plugin's output, and one written to [sys.stderr], if
    it was patched, exactly one at level [warn]; the write succeeds and
    the sink is empty again afterwards; a stream whose flag is not set
    is left in place. *)
Theorem monkey_patch_levels :
  forall (out err : bool) (sys : Sys) (plugin : Plugin) (line : string),
    Text.split_nl line = [line] ->
    (forall sink, out = true ->
        sys_stdout (monkey_patch out err sys) = Some sink ->
        let r := Stream.write (line ++ Text.NL) sink plugin in
        fst (fst r) = Ok tt
        /\ stdout (snd r)
           = (stdout plugin
              ++ [FNotification "log"
                    [("level", Text "info"); ("message", Text line)]])%list
        /\ buff (snd (fst r)) = "" /\ level (snd (fst r)) = "info")
    /\ (forall sink, err = true ->
           sys_stderr (monkey_patch out err sys) = Some sink ->
           let r := Stream.write (line ++ Text.NL) sink plugin in
           fst (fst r) = Ok tt
           /\ stdout (snd r)
              = (stdout plugin
                 ++ [FNotification "log"
                       [("level", Text "warn"); ("message", Text line)]])%list
           /\ buff (snd (fst r)) = "" /\ level (snd (fst r)) = "warn")
    /\ (out = false -> sys_stdout (monkey_patch out err sys) = sys_stdout sys)
    /\ (err = false -> sys_stderr (monkey_patch out err sys) = sys_stderr sys).
Proof.
  intros out err sys plugin line Hl.
  split; [|split; [|split]].
  - intros sink -> H. destruct err; cbn in H; injection H as <-;
      rewrite (fresh_sink_line _ line plugin Hl); repeat split.
  - intros sink -> H. destruct out; cbn in H; injection H as <-;
      rewrite (fresh_sink_line _ line plugin Hl); repeat split.
  - intros ->. destruct err; reflexivity.
  - intros ->. destruct out; reflexivity.
Qed.

Lemma monkey_patch_levels_witness :
  let r := Stream.write ("oops" ++ Text.NL) (PluginStream_new "warn")
             Plugin_new in
  fst (fst r) = Ok tt
  /\ stdout (snd r)
     = [FNotification "log" [("level", Text "warn"); ("message", Text "oops")]]
  /\ buff (snd (fst r)) = "" /\ level (snd (fst r)) = "warn".
Proof.
  refine (proj1 (proj2 (monkey_patch_levels true true Sys_new Plugin_new
                          "oops" _))
            (PluginStream_new "warn") _ _);
    reflexivity.
Defined.

(** ** The depth of the handshake *)

Lemma dispatch_ext (n1 n2 : nat) (request : json) (self : Plugin) :
  (forall f ba, call (nested _dispatch n1) f ba self
                = call (nested _dispatch n2) f ba self) ->
  _dispatch n1 request self = _dispatch n2 request self.
Proof.
  intros H.
  destruct n1, n2; cbn [_dispatch]; unfold getitem, find_method;
    (destruct request as [| | | |items|d]; run_monad; try reflexivity;
     destruct (Dict.get "method" d) as [name|]; run_monad; try reflexivity;
     destruct (Dict.get "params" d) as [params|]; run_monad; try reflexivity;
     destruct name as [| | |s| |]; run_monad; try reflexivity;
     destruct (Dict.get s (methods self)) as [f|]; run_monad; try reflexivity;
     destruct (Signature.bind_args _ _ _) as [ba|e]; run_monad;
     first [reflexivity|apply H]).
Qed.

Lemma dispatch_unstashed_depth (n : nat) (request : json) (self : Plugin) :
  init self = None ->
  _dispatch (S n) request self = _dispatch 1 request self.
Proof.
  intros Hinit. apply dispatch_ext. intros f ba.
  destruct f as [| |u]; cbn [call nested]; try reflexivity.
  destruct ba as [|[? o] [|[? c] [|[? r] [|]]]]; try reflexivity.
  unfold _init. run_monad. rewrite Hinit. reflexivity.
Qed.

(** X15.  [_dispatch] always comes back: [_init] empties the stash before
    it dispatches again, so the dispatch inside [_init] never goes
    through [_init]'s own re-dispatch a second time.  Two levels are
    enough for every request and every plugin, and more change
    nothing. *)
Theorem dispatch_depth_two :
  forall (n : nat) (request : json) (self : Plugin),
    _dispatch (S (S n)) request self = _dispatch 2 request self
    /\ fst (_dispatch 2 request self) <> OutOfFuel.
Proof.
  intros n request self. split; [|apply dispatch_total].
  apply dispatch_ext. intros f ba.
  destruct f as [| |u]; cbn [call nested]; try reflexivity.
  destruct ba as [|[? o] [|[? c] [|[? r] [|]]]]; try reflexivity.
  unfold _init. run_monad.
  destruct (init self) as [f|]; [|reflexivity].
  destruct r as [r|]; [|reflexivity].
  apply dispatch_unstashed_depth. reflexivity.
Qed.

(** ** What ends the loop, and what does not *)

(** X16.  When [run] comes to the end of its input, the partial buffer
    is what follows the last delimiter of the whole input, and it holds
    no delimiter itself: no complete frame is ever left waiting. *)
Theorem run_leaves_no_complete_frame :
  forall (loads : string -> option json) (fuel : nat) (stdin : list string)
         (self self' : Plugin) (partial : string),
    run loads fuel stdin self = (Ok partial, self') ->
    partial = Text.last_seg (Text.split_nlnl (Text.join stdin))
    /\ Text.split_nlnl partial = [partial].
Proof.
  intros loads fuel stdin self self' partial. unfold run, bind.
  destruct (stash_init self) as [[[]|e|] s1]; try discriminate.
  rewrite read_loop_frames by reflexivity. unfold bind. cbn [String.append].
  destruct (respond_all loads fuel _ s1) as [[[]|e|] s2]; try discriminate.
  cbn [ret]. intros [= <- _]. split; [reflexivity|].
  apply (TextFacts.split_segments (Text.join stdin)).
  apply TextFacts.last_seg_in, TextFacts.split_nonempty.
Qed.

Lemma run_leaves_no_complete_frame_witness :
  "PARTIAL"
  = Text.last_seg
      (Text.split_nlnl (Text.join (Text.lines Examples.two_and_a_half)))
  /\ Text.split_nlnl "PARTIAL" = ["PARTIAL"].
Proof.
  apply (run_leaves_no_complete_frame MiniJson.loads 2
           (Text.lines Examples.two_and_a_half) Plugin_new
           (snd (run MiniJson.loads 2 (Text.lines Examples.two_and_a_half)
                   Plugin_new))).
  vm_compute. reflexivity.
Defined.

(** X17.  Whenever [respond] returns normally, the frame decoded to an
    object with an id, and what [respond] has written to stdout after
    the dispatch ends with the response that carries this id: it is the
    success response alone, with the JSON value that [_dispatch]
    returned, or the log notification with the traceback followed by the
    error response that names the method, for an exception that
    [except Exception] catches. *)
Theorem respond_returns_after_one_response :
  forall (loads : string -> option json) (fuel : nat) (payload : string)
         (self self' : Plugin),
    respond loads fuel payload self = (Ok tt, self') ->
    exists d id,
      loads payload = Some (JObj d)
      /\ Dict.get "id" d = Some id
      /\ ((exists j s1,
              _dispatch fuel (JObj d) self = (Ok (PJson j), s1)
              /\ stdout self' = (stdout s1 ++ [FResult j id])%list)
          \/ (exists e method s1,
                 _dispatch fuel (JObj d) self = (Exc e, s1)
                 /\ is_Exception e = true
                 /\ Dict.get "method" d = Some method
                 /\ stdout self'
                    = (stdout s1
                       ++ [FNotification "log"
                             [("level", Text "info");
                              ("message", FormatExc e)];
                           FError method id])%list)).
Proof.
  intros loads fuel payload self self'.
  unfold respond, json_loads, try_except.
  destruct (loads payload) as [request|]; [|discriminate].
  unfold bind at 1. cbn [ret]. unfold bind at 1. unfold bind at 1.
  destruct (_dispatch fuel request self) as [[v|e|] s1] eqn:Hd;
    [| |discriminate].
  - unfold getitem, log, notify.
    destruct request as [| | | |items|d]; run_monad; try discriminate.
    destruct (Dict.get "id" d) as [id|] eqn:Hi; run_monad.
    + destruct v as [j|]; run_monad; [|discriminate].
      intros [= <-]. exists d, id.
      split; [reflexivity|]. split; [exact Hi|]. left.
      exists j, s1. split; [exact Hd|reflexivity].
    + destruct (Dict.get "method" d); run_monad; discriminate.
  - destruct (is_Exception e) eqn:He; [|discriminate].
    unfold getitem, log, notify.
    destruct request as [| | | |items|d]; run_monad; try discriminate.
    destruct (Dict.get "method" d) as [m|] eqn:Hm; run_monad;
      [|discriminate].
    destruct (Dict.get "id" d) as [id|] eqn:Hi; run_monad; [|discriminate].
    intros [= <-]. exists d, id.
    split; [reflexivity|]. split; [exact Hi|]. right.
    exists e, m, s1. repeat split; try assumption.
    cbn [stdout write_frame]. rewrite <- app_assoc. reflexivity.
Qed.

Lemma respond_returns_after_one_response_witness :
  exists d id,
    MiniJson.loads Examples.nope = Some (JObj d)
    /\ Dict.get "id" d = Some id
    /\ ((exists j s1,
            _dispatch 2 (JObj d) Plugin_new = (Ok (PJson j), s1)
            /\ stdout (snd (respond MiniJson.loads 2 Examples.nope Plugin_new))
               = (stdout s1 ++ [FResult j id])%list)
        \/ (exists e method s1,
               _dispatch 2 (JObj d) Plugin_new = (Exc e, s1)
               /\ is_Exception e = true
               /\ Dict.get "method" d = Some method
               /\ stdout (snd (respond MiniJson.loads 2 Examples.nope
                                 Plugin_new))
                  = (stdout s1
                     ++ [FNotification "log"
                           [("level", Text "info");
                            ("message", FormatExc e)];
                         FError method id])%list)).
Proof.
  apply (respond_returns_after_one_response MiniJson.loads 2 Examples.nope
           Plugin_new
           (snd (respond MiniJson.loads 2 Examples.nope Plugin_new))).
  vm_compute. reflexivity.
Defined.

(** X18.  An exception that is not derived from [Exception], such as
    [SystemExit] raised by a handler, is not caught: it leaves
    [respond] and [_multi_dispatch] with nothing written after the
    dispatch, and the frames that follow are not answered. *)
Theorem exit_in_handler_ends_loop :
  forall (loads : string -> option json) (fuel : nat) (payload : string)
         (more : list string) (request : json) (e : exn)
         (self s1 : Plugin),
    loads payload = Some request ->
    _dispatch fuel request self = (Exc e, s1) ->
    is_Exception e = false ->
    more <> [] ->
    respond loads fuel payload self = (Exc e, s1)
    /\ _multi_dispatch loads fuel (payload :: more) self = (Exc e, s1).
Proof.
  intros loads fuel payload more request e self s1 Hl Hd He Hmore.
  assert (Hr : respond loads fuel payload self = (Exc e, s1)).
  { unfold respond, json_loads, try_except. rewrite Hl.
    unfold bind at 1. cbn [ret]. unfold bind at 1. unfold bind at 1.
    rewrite Hd, He. reflexivity. }
  split; [exact Hr|].
  unfold _multi_dispatch. rewrite TextFacts.but_last_cons by exact Hmore.
  cbn [respond_all]. unfold bind. rewrite Hr. reflexivity.
Qed.

Lemma exit_in_handler_ends_loop_witness :
  let payload := MiniJson.dq "{'method':'quit','params':[],'id':4}" in
  respond MiniJson.loads 2 payload misbehaved
  = (Exc (HandlerExit "SystemExit"), log_call "quit" [] misbehaved)
  /\ _multi_dispatch MiniJson.loads 2 [payload; Examples.getmanifest_1; ""]
       misbehaved
     = (Exc (HandlerExit "SystemExit"), log_call "quit" [] misbehaved).
Proof.
  apply (exit_in_handler_ends_loop MiniJson.loads 2
           (MiniJson.dq "{'method':'quit','params':[],'id':4}")
           [Examples.getmanifest_1; ""]
           (JObj [("method", JStr "quit"); ("params", JArr []);
                  ("id", JNum 4)])
           (HandlerExit "SystemExit") misbehaved
           (log_call "quit" [] misbehaved));
    try (vm_compute; reflexivity).
  discriminate.
Defined.

(** X19.  A handler result that [json.dump] cannot serialise ends the
    loop: the response is dumped outside the [try], and [json.dump] has
    written the beginning of the response, up to the [result] key, when
    it raises.  [TypeError] leaves [respond] and [_multi_dispatch];
    stdout is left with that truncated text after what the dispatch
    wrote, no delimiter follows, and the frames that follow are not
    answered. *)
Theorem unserialisable_result_ends_loop :
  forall (loads : string -> option json) (fuel : nat) (payload : string)
         (more : list string) (d : list (string * json)) (id : json)
         (self s1 : Plugin),
    loads payload = Some (JObj d) ->
    Dict.get "id" d = Some id ->
    _dispatch fuel (JObj d) self = (Ok PPlugin, s1) ->
    more <> [] ->
    let e := TypeError "Object of type Plugin is not JSON serializable" in
    let r := respond loads fuel payload self in
    fst r = Exc e
    /\ stdout (snd r) = (stdout s1 ++ [FTruncated])%list
    /\ _multi_dispatch loads fuel (payload :: more) self = (Exc e, snd r).
Proof.
  intros loads fuel payload more d id self s1 Hl Hi Hd Hmore e r.
  assert (Hr : respond loads fuel payload self
               = (Exc e, write_frame FTruncated s1)).
  { unfold respond, json_loads, try_except. rewrite Hl.
    unfold bind at 1. cbn [ret]. unfold bind at 1. unfold bind at 1.
    rewrite Hd. unfold getitem. run_monad. rewrite Hi. reflexivity. }
  subst r. rewrite Hr. cbn [fst snd]. repeat split.
  unfold _multi_dispatch. rewrite TextFacts.but_last_cons by exact Hmore.
  cbn [respond_all]. unfold bind. rewrite Hr. reflexivity.
Qed.

Lemma unserialisable_result_ends_loop_witness :
  let payload := MiniJson.dq "{'method':'me','params':[],'id':5}" in
  let e := TypeError "Object of type Plugin is not JSON serializable" in
  let r := respond MiniJson.loads 2 payload misbehaved in
  fst r = Exc e
  /\ stdout (snd r)
     = (stdout (log_call "me" [("plugin", PPlugin)] misbehaved)
        ++ [FTruncated])%list
  /\ _multi_dispatch MiniJson.loads 2 [payload; Examples.getmanifest_1; ""]
       misbehaved = (Exc e, snd r).
Proof.
  apply (unserialisable_result_ends_loop MiniJson.loads 2
           (MiniJson.dq "{'method':'me','params':[],'id':5}")
           [Examples.getmanifest_1; ""]
           [("method", JStr "me"); ("params", JArr []); ("id", JNum 5)]
           (JNum 5) misbehaved
           (log_call "me" [("plugin", PPlugin)] misbehaved));
    try (vm_compute; reflexivity).
  discriminate.
Defined.

(** X20.  A frame that is JSON but no request ends the loop even when it
    has an id: for a value that is not an object, or an object without
    [method], [_dispatch] raises at [request['method']], and the
    [except] block raises again at the same place; nothing is written,
    the plugin is left as it was, and the frames that follow are not
    answered. *)
Theorem request_without_method_ends_loop :
  forall (loads : string -> option json) (fuel : nat) (payload : string)
         (more : list string) (request : json) (self : Plugin),
    loads payload = Some request ->
    (forall d, request = JObj d -> Dict.get "method" d = None) ->
    more <> [] ->
    exists e,
      respond loads fuel payload self = (Exc e, self)
      /\ _multi_dispatch loads fuel (payload :: more) self = (Exc e, self)
      /\ (e = KeyError "method" \/ exists m, e = TypeError m).
Proof.
  intros loads fuel payload more request self Hl Hm Hmore.
  assert (Hr : exists e,
             respond loads fuel payload self = (Exc e, self)
             /\ (e = KeyError "method" \/ exists m, e = TypeError m)).
  { unfold respond, json_loads, try_except. rewrite Hl.
    unfold bind at 1. cbn [ret]. unfold bind at 1. unfold bind at 1.
    destruct request as [| |n|s|items|d].
    1-5: destruct fuel; cbn [_dispatch]; unfold getitem; run_monad;
      cbn [is_Exception]; (eexists; split; [reflexivity|]; right; eauto).
    specialize (Hm d eq_refl).
    destruct fuel; cbn [_dispatch]; unfold getitem; run_monad;
      rewrite ?Hm; run_monad; cbn [is_Exception]; rewrite ?Hm;
      (eexists; split; [reflexivity|]; left; reflexivity). }
  destruct Hr as (e & Hr & He). exists e. repeat split; try assumption.
  unfold _multi_dispatch. rewrite TextFacts.but_last_cons by exact Hmore.
  cbn [respond_all]. unfold bind. rewrite Hr. reflexivity.
Qed.

Lemma request_without_method_ends_loop_witness :
  exists e,
    respond MiniJson.loads 2 (MiniJson.dq "{'id': 9}") Plugin_new
    = (Exc e, Plugin_new)
    /\ _multi_dispatch MiniJson.loads 2
         [MiniJson.dq "{'id': 9}"; Examples.getmanifest_1; ""] Plugin_new
       = (Exc e, Plugin_new)
    /\ (e = KeyError "method" \/ exists m, e = TypeError m).
Proof.
  apply (request_without_method_ends_loop MiniJson.loads 2
           (MiniJson.dq "{'id': 9}") [Examples.getmanifest_1; ""]
           (JObj [("id", JNum 9)]) Plugin_new).
  - vm_compute. reflexivity.
  - intros d [= <-]. reflexivity.
  - discriminate.
Defined.

(** ** Registration and the manifest together *)

Lemma set_fresh_app {V} (k : string) (v : V) (d : list (string * V)) :
  Dict.get k d = None -> Dict.set k v d = (d ++ [(k, v)])%list.
Proof.
  induction d as [|[k' v'] d IH]; cbn; [reflexivity|].
  destruct (String.eqb k k'); [discriminate|].
  intros H. rewrite IH by exact H. reflexivity.
Qed.

(** X21.  A function registered under a free name that is neither
    [getmanifest] nor [init] is what the manifest lists last: the
    [rpcmethods] of the manifest are those of before, followed by the
    object with the new name and, as description, the docstring of the
    function or the placeholder if it has none. *)
Theorem registered_method_listed_last :
  forall (name : string) (f : handler) (self : Plugin) (before : list json),
    Dict.get name (methods self) = None ->
    is_builtin name = false ->
    fst (_getmanifest self)
    = Ok (PJson (JObj [("options", JArr []); ("rpcmethods", JArr before)])) ->
    fst (_getmanifest (snd (add_method name f self)))
    = Ok (PJson
            (JObj [("options", JArr []);
                   ("rpcmethods",
                    JArr (before
                          ++ [JObj [("name", JStr name);
                                    ("description",
                                     JStr
                                       match getdoc f with
                                       | Some (String c d) => String c d
                                       | _ =>
                                           "Undocumented RPC method from a plugin."
                                       end)]]))])).
Proof.
  intros name f self before Hfree Hb.
  rewrite (add_method_fresh name f self Hfree). cbn [snd].
  unfold _getmanifest. run_monad.
  destruct (manifest_methods_spec (methods self) self) as (s1 & -> & _).
  destruct (manifest_methods_spec
              (methods (set_methods (Dict.set name f (methods self)) self))
              (set_methods (Dict.set name f (methods self)) self))
    as (s2 & -> & _).
  cbn [fst methods set_methods]. intros [= <-].
  rewrite (set_fresh_app name f (methods self) Hfree).
  rewrite filter_app, map_app. cbn [filter fst snd map]. rewrite Hb.
  reflexivity.
Qed.

Lemma registered_method_listed_last_witness :
  fst (_getmanifest (snd (add_method "hello" (User Examples.hello)
                            Plugin_new)))
  = Ok (PJson
          (JObj [("options", JArr []);
                 ("rpcmethods",
                  JArr [JObj [("name", JStr "hello");
                              ("description",
                               JStr "Greets the caller.")]])])).
Proof.
  exact (registered_method_listed_last "hello" (User Examples.hello)
           Plugin_new [] eq_refl eq_refl eq_refl).
Defined.
